(** * ADSR envelopes of [music.core.filters.adsr]

    A shallow embedding of [adsr] and [adsr_stereo]
    (src/music/core/filters/adsr.py) and of the Python and NumPy operations
    they use.  Python numbers are modelled as they are at run time: an [int]
    is an unbounded integer, a [float] is an IEEE-754 binary64 value (Rocq's
    primitive floats), and an operation that raises returns [Raise].

    [fade] and [loud] (imported from [.fade] and [.loud]) are not among the
    sources, and [10 ** x] is the C library's [pow]: the three are parameters
    of the embedding. *)

From Stdlib Require Import ZArith QArith Qround String List Floats Lia Bool.
Import ListNotations.

(** ** Exceptions and fallible computations *)

Module Py.

Inductive exn : Set :=
| ZeroDivisionError
| TypeError
| ValueError
| OverflowError
| IndexError
| NotImplementedError.

Inductive result (A : Type) : Type :=
| Ok (a : A)
| Raise (e : exn).

Arguments Ok {A} a.
Arguments Raise {A} e.

Definition bind {A B : Type} (c : result A) (k : A -> result B) : result B :=
  match c with
  | Ok a => k a
  | Raise e => Raise e
  end.

Definition raises {A : Type} (c : result A) : Prop :=
  exists e, c = Raise e.

(** ** Python numbers *)

Inductive pynum : Set :=
| PyInt (z : Z)
| PyFloat (f : float).

(** [float(z)]: the nearest binary64 value (ties to even);
    [OverflowError] when [z] is too large for a float. *)
Definition float_of_int (z : Z) : result float :=
  match binary_normalize prec emax z 0 false with
  | S754_infinity _ => Raise OverflowError
  | sf => Ok (SF2Prim sf)
  end.

Definition as_float (x : pynum) : result float :=
  match x with
  | PyInt z => float_of_int z
  | PyFloat f => Ok f
  end.

(** [x == 0.0], true of both signed zeros and false of nan. *)
Definition is_zero (f : float) : bool := PrimFloat.eqb f 0%float.

(** [a * b]: exact on two ints, binary64 otherwise (no exception on
    overflow, the product is then an infinity). *)
Definition py_mul (a b : pynum) : result pynum :=
  match a, b with
  | PyInt x, PyInt y => Ok (PyInt (x * y))
  | _, _ =>
      bind (as_float a) (fun fa =>
      bind (as_float b) (fun fb =>
      Ok (PyFloat (fa * fb)%float)))
  end.

(** [x / y] on two ints: the correctly rounded quotient. *)
Definition int_truediv (x y : Z) : result float :=
  if (y =? 0)%Z then Raise ZeroDivisionError
  else if (x =? 0)%Z then Ok (if (y <? 0)%Z then (-0)%float else 0%float)
  else
    let '(mz, ez, lz) := SFdiv_core_binary prec emax (Z.abs x) 0 (Z.abs y) 0 in
    match binary_round_aux prec emax (xorb (x <? 0)%Z (y <? 0)%Z) mz ez lz with
    | S754_infinity _ => Raise OverflowError
    | sf => Ok (SF2Prim sf)
    end.

(** [a / b] (true division). *)
Definition py_truediv (a b : pynum) : result float :=
  match a, b with
  | PyInt x, PyInt y => int_truediv x y
  | _, _ =>
      bind (as_float a) (fun fa =>
      bind (as_float b) (fun fb =>
      if is_zero fb then Raise ZeroDivisionError else Ok (fa / fb)%float))
  end.

(** The integer a finite float truncates to, toward zero. *)
Definition trunc_finite (s : bool) (m : positive) (e : Z) : Z :=
  let a := if (0 <=? e)%Z then Z.shiftl (Z.pos m) e
           else Z.shiftr (Z.pos m) (- e) in
  if s then (- a)%Z else a.

(** [int(x)]. *)
Definition py_int (x : pynum) : result Z :=
  match x with
  | PyInt z => Ok z
  | PyFloat f =>
      match Prim2SF f with
      | S754_zero _ => Ok 0%Z
      | S754_infinity _ => Raise OverflowError
      | S754_nan => Raise ValueError
      | S754_finite s m e => Ok (trunc_finite s m e)
      end
  end.

(** A keyword argument documented as "scalar or array_like": a Python
    number, a Python list of numbers, or a one-dimensional float ndarray. *)
Inductive pyparam : Set :=
| Scalar (x : pynum)
| PyList (l : list pynum)
| NdArray (a : list float).

(** [p / d] for such an argument and a Python number [d]: a list has no
    [/]; an ndarray is divided element by element and NumPy only warns on a
    zero divisor. *)
Definition param_truediv (p : pyparam) (d : pynum) : result pyparam :=
  match p with
  | Scalar x => bind (py_truediv x d) (fun q => Ok (Scalar (PyFloat q)))
  | PyList _ => Raise TypeError
  | NdArray a =>
      bind (as_float d) (fun fd => Ok (NdArray (map (fun x => (x / fd)%float) a)))
  end.

End Py.

Export Py.

Declare Scope py_scope.
Delimit Scope py_scope with py.
Notation "x <- c ;; k" := (bind c (fun x => k))
  (at level 61, c at next level, right associativity) : py_scope.
Open Scope py_scope.
Open Scope Z_scope.

(** ** NumPy arrays (one-dimensional, float64) *)

Module Np.

(** [np.ones(k)]: a negative dimension is a [ValueError]. *)
Definition ones (k : Z) : result (list float) :=
  if k <? 0 then Raise ValueError else Ok (repeat 1%float (Z.to_nat k)).

(** [a * c] for an array [a] and a float [c]. *)
Definition scale (a : list float) (c : float) : list float :=
  map (fun x => (x * c)%float) a.

(** [np.hstack] of one-dimensional arrays. *)
Definition hstack (parts : list (list float)) : list float := List.concat parts.

Fixpoint zip_mul (a b : list float) : list float :=
  match a, b with
  | x :: a', y :: b' => (x * y)%float :: zip_mul a' b'
  | _, _ => []
  end.

(** [a * b] for two arrays: element-wise on equal lengths, a length-one
    operand is broadcast, any other pair of shapes is a [ValueError]. *)
Definition mul (a b : list float) : result (list float) :=
  if (length a =? length b)%nat then Ok (zip_mul a b)
  else match a, b with
       | _, [y] => Ok (map (fun x => (x * y)%float) a)
       | [x], _ => Ok (map (fun y => (x * y)%float) b)
       | _, _ => Raise ValueError
       end.

(** [np.vstack((r0, r1))] of two one-dimensional arrays. *)
Definition vstack (r0 r1 : list float) : result (list (list float)) :=
  if (length r0 =? length r1)%nat then Ok [r0; r1] else Raise ValueError.

End Np.

(** ** The keyword arguments of [adsr] *)

Record adsr_args : Set := {
  envelope_duration : pynum;
  attack_duration : pynum;
  decay_duration : pynum;
  sustain_level : pynum;
  release_duration : pynum;
  transition : string;
  alpha : pyparam;
  db_dev : pyparam;
  to_zero : pyparam;
  number_of_samples : Z;
  sample_rate : pynum
}.

(** The defaults of the signature (adsr.py, lines 7-11). *)
Definition default_args : adsr_args := {|
  envelope_duration := PyInt 2;
  attack_duration := PyInt 20;
  decay_duration := PyInt 20;
  sustain_level := PyInt (-5);
  release_duration := PyInt 50;
  transition := "exp";
  alpha := Scalar (PyInt 1);
  db_dev := Scalar (PyInt (-80));
  to_zero := Scalar (PyInt 1);
  number_of_samples := 0;
  sample_rate := PyInt 44100
|}.

(** The float literal [0.001]. *)
Definition milli : float := 0x1.0624dd2f1a9fcp-10%float.

(** The type of [fade]: [fade_out] ([None] when the call leaves it at its
    default), [method], [alpha], [dB], [perc], [number_of_samples]. *)
Definition fade_fn : Type :=
  option bool -> string -> pyparam -> pyparam -> pyparam -> Z ->
  result (list float).

(** The type of [loud]: [trans_dev], [method], [alpha],
    [number_of_samples]. *)
Definition loud_fn : Type :=
  pynum -> string -> pyparam -> Z -> result (list float).

Section Adsr.

Variable fade : fade_fn.
Variable loud : loud_fn.
(** [10 ** x] for a float [x] ([OverflowError] when out of range). *)
Variable pow10 : float -> result float.

(** Lines 93-98: the total length [Lambda].  [sonic_vector] is [Some s] when
    its type is [list] or [ndarray], [None] for the scalar placeholder. *)
Definition total_length (c : adsr_args) (sonic_vector : option (list float))
  : result Z :=
  match sonic_vector with
  | Some s => Ok (Z.of_nat (length s))
  | None =>
      if negb (number_of_samples c =? 0) then Ok (number_of_samples c)
      else
        x <- py_mul (envelope_duration c) (sample_rate c) ;;
        py_int x
  end.

(** Lines 99-101: [int(duration * sample_rate * 0.001)]. *)
Definition segment_samples (duration rate : pynum) : result Z :=
  x <- py_mul duration rate ;;
  y <- py_mul x (PyFloat milli) ;;
  py_int y.

(** Line 108: [10 ** (sustain_level / 20.)]. *)
Definition sustain_amplitude (c : adsr_args) : result float :=
  x <- py_truediv (sustain_level c) (PyFloat 20%float) ;;
  pow10 x.

(** Lines 103-114: the four segments and their concatenation [AD]. *)
Definition envelope (c : adsr_args) (Lambda Lambda_A Lambda_D Lambda_R : Z)
  : result (list float) :=
  perc <- param_truediv (to_zero c) (attack_duration c) ;;
  attack <- fade (Some false) (transition c) (alpha c) (db_dev c) perc Lambda_A ;;
  decay <- loud (sustain_level c) (transition c) (alpha c) Lambda_D ;;
  a_S <- sustain_amplitude c ;;
  ones <- Np.ones (Lambda - (Lambda_A + Lambda_R + Lambda_D)) ;;
  let sustain := Np.scale ones a_S in
  perc <- param_truediv (to_zero c) (release_duration c) ;;
  curve <- fade None (transition c) (alpha c) (db_dev c) perc Lambda_R ;;
  let release := Np.scale curve a_S in
  Ok (Np.hstack [attack; decay; sustain; release]).

(** [adsr] (lines 93-118). *)
Definition adsr (c : adsr_args) (sonic_vector : option (list float))
  : result (list float) :=
  Lambda <- total_length c sonic_vector ;;
  Lambda_A <- segment_samples (attack_duration c) (sample_rate c) ;;
  Lambda_D <- segment_samples (decay_duration c) (sample_rate c) ;;
  Lambda_R <- segment_samples (release_duration c) (sample_rate c) ;;
  AD <- envelope c Lambda Lambda_A Lambda_D Lambda_R ;;
  match sonic_vector with
  | Some s => Np.mul s AD
  | None => Ok AD
  end.

(** [sonic_vector[i]] on a list of rows. *)
Definition row (rows : list (list float)) (i : nat) : result (list float) :=
  match nth_error rows i with
  | Some r => Ok r
  | None => Raise IndexError
  end.

(** [adsr_stereo] (lines 124-144); its [duration] is the record's
    [envelope_duration]. *)
Definition adsr_stereo (c : adsr_args) (sonic_vector : option (list (list float)))
  : result (list (list float)) :=
  channels <-
    match sonic_vector with
    | Some rows =>
        r0 <- row rows 0 ;;
        r1 <- row rows 1 ;;
        Ok (Some r0, Some r1)
    | None => Ok (None, None)
    end ;;
  s1 <- adsr c (fst channels) ;;
  s2 <- adsr c (snd channels) ;;
  Np.vstack s1 s2.

End Adsr.

Arguments total_length c sonic_vector : simpl never.
Arguments segment_samples duration rate : simpl never.

(** The envelope made of an attack, a decay, [k] samples at the sustain
    amplitude [a_S] and a release curve scaled by [a_S]. *)
Definition assembled (attack decay : list float) (a_S : float) (k : nat)
  (curve : list float) : list float :=
  attack ++ decay ++ repeat a_S k ++ Np.scale curve a_S.

(** The contract the specification gives the two generators: a result has
    exactly the number of samples asked for. *)
Definition fade_contract (fade : fade_fn) : Prop :=
  forall fade_out method al dB perc n l,
    fade fade_out method al dB perc n = Ok l -> Z.of_nat (length l) = n.

Definition loud_contract (loud : loud_fn) : Prop :=
  forall dev method al n l,
    loud dev method al n = Ok l -> Z.of_nat (length l) = n.

(** ** Keyword overrides *)

Definition with_envelope_duration (c : adsr_args) (d : pynum) : adsr_args := {|
  envelope_duration := d;
  attack_duration := attack_duration c;
  decay_duration := decay_duration c;
  sustain_level := sustain_level c;
  release_duration := release_duration c;
  transition := transition c;
  alpha := alpha c;
  db_dev := db_dev c;
  to_zero := to_zero c;
  number_of_samples := number_of_samples c;
  sample_rate := sample_rate c
|}.

Definition with_number_of_samples (c : adsr_args) (n : Z) : adsr_args := {|
  envelope_duration := envelope_duration c;
  attack_duration := attack_duration c;
  decay_duration := decay_duration c;
  sustain_level := sustain_level c;
  release_duration := release_duration c;
  transition := transition c;
  alpha := alpha c;
  db_dev := db_dev c;
  to_zero := to_zero c;
  number_of_samples := n;
  sample_rate := sample_rate c
|}.

(** [x == 0] for a Python number. *)
Definition num_is_zero (x : pynum) : bool :=
  match x with
  | PyInt z => z =? 0
  | PyFloat f => is_zero f
  end.

Definition is_ndarray (p : pyparam) : bool :=
  match p with
  | NdArray _ => true
  | _ => false
  end.

(** The number of samples of a returned buffer, [None] for a call that
    raised. *)
Definition returned_length (r : result (list float)) : option nat :=
  match r with
  | Ok buf => Some (length buf)
  | Raise _ => None
  end.

(** The value of a computation known to succeed ([d] otherwise). *)
Definition value_or {A : Type} (d : A) (r : result A) : A :=
  match r with
  | Ok a => a
  | Raise _ => d
  end.

(** ** Exact values, for comparing [int] with rounding *)

(** The rational a finite float denotes. *)
Definition finite_value (s : bool) (m : positive) (e : Z) : Q :=
  let n := if s then Z.neg m else Z.pos m in
  if 0 <=? e then Qmake (n * 2 ^ e) 1 else Qmake n (Z.to_pos (2 ^ (- e))).

Definition float_value (f : float) : option Q :=
  match Prim2SF f with
  | S754_zero _ => Some 0%Q
  | S754_finite s m e => Some (finite_value s m e)
  | _ => None
  end.

(** Truncation toward zero. *)
Definition Qtrunc (q : Q) : Z := Z.quot (Qnum q) (Z.pos (Qden q)).

(** Rounding to the nearest integer, ties to the even one (Python's
    [round]). *)
Definition Qround_nearest (q : Q) : Z :=
  let f := Qfloor q in
  match Qcompare (q - inject_Z f) (1 # 2) with
  | Lt => f
  | Gt => f + 1
  | Eq => if Z.even f then f else f + 1
  end.

(** As the specification words the conversion of a segment duration:
    [round(duration_ms * sample_rate / 1000)], on exact values. *)
Definition spec_segment_samples (duration_ms rate : Q) : Z :=
  Qround_nearest (duration_ms * rate / 1000).

(** ** Concrete generators for the examples *)

Module Examples.

Definition float_of_Z (z : Z) : float :=
  SF2Prim (binary_normalize prec emax z 0 false).

(** [n] evenly spaced values from [a] to [b], both ends included. *)
Definition linspace (a b : float) (n : nat) : list float :=
  match n with
  | O => []
  | S O => [a]
  | S m =>
      let step := ((b - a) / float_of_Z (Z.of_nat m))%float in
      map (fun i => (a + float_of_Z (Z.of_nat i) * step)%float) (seq 0 m) ++ [b]
  end.

(** [10 ** x] at the integral exponents from -22 to 22, where [10^|x|] is
    a binary64 value; other exponents are left out. *)
Definition pow10_int (x : float) : result float :=
  k <- py_int (PyFloat x) ;;
  if PrimFloat.eqb x (float_of_Z k) && (Z.abs k <=? 22)
  then Ok (if 0 <=? k then float_of_Z (10 ^ k)
           else (1 / float_of_Z (10 ^ (- k)))%float)
  else Raise NotImplementedError.

(** Modelled from the spec: the linear family of the Fade Curve Generator
    [fade] (fade.py is not among the sources).  "Linear mode: evenly spaced
    values from 0 to 1 (or reverse), length N"; the shape exponent, the
    decibel floor and the zero-approach fraction are ignored for linear
    transitions; a call that leaves [fade_out] at its default is a fade-out
    (the release call of the Envelope Assembler).  The exponential family
    is not modelled. *)
Definition lin_fade : fade_fn :=
  fun fade_out method _alpha _dB _perc n =>
    if negb (String.eqb method "linear") then Raise NotImplementedError
    else if n <? 0 then Raise ValueError
    else Ok (match fade_out with
             | Some false => linspace 0 1 (Z.to_nat n)
             | _ => linspace 1 0 (Z.to_nat n)
             end).

(** Modelled from the spec: the linear family of the Loudness Transition
    Generator [loud] (loud.py is not among the sources): "N amplitude
    values forming a monotonic transition from amplitude 1.0 toward
    amplitude 10^(deviation/20)".  The exponential family is not
    modelled. *)
Definition lin_loud (pow10 : float -> result float) : loud_fn :=
  fun trans_dev method _alpha n =>
    if negb (String.eqb method "linear") then Raise NotImplementedError
    else if n <? 0 then Raise ValueError
    else
      x <- py_truediv trans_dev (PyFloat 20%float) ;;
      a <- pow10 x ;;
      Ok (linspace 1 a (Z.to_nat n)).

(** [adsr] with the linear generators. *)
Definition lin_adsr : adsr_args -> option (list float) -> result (list float) :=
  adsr lin_fade (lin_loud pow10_int) pow10_int.

Definition lin_adsr_stereo
  : adsr_args -> option (list (list float)) -> result (list (list float)) :=
  adsr_stereo lin_fade (lin_loud pow10_int) pow10_int.

(** A one-second linear envelope at 100 Hz: 2 attack, 2 decay, 91 sustain
    and 5 release samples, sustained 20 dB below full scale. *)
Definition cfg_lin : adsr_args := {|
  envelope_duration := PyInt 1;
  attack_duration := PyInt 20;
  decay_duration := PyInt 20;
  sustain_level := PyInt (-20);
  release_duration := PyInt 50;
  transition := "linear";
  alpha := Scalar (PyInt 1);
  db_dev := Scalar (PyInt (-80));
  to_zero := Scalar (PyInt 1);
  number_of_samples := 0;
  sample_rate := PyInt 100
|}.

(** The same request with no length at all: [envelope_duration = 0],
    [number_of_samples = 0], no signal. *)
Definition cfg_zero_length : adsr_args := {|
  envelope_duration := PyInt 0;
  attack_duration := PyInt 20; decay_duration := PyInt 20;
  sustain_level := PyInt (-20); release_duration := PyInt 50;
  transition := "linear";
  alpha := Scalar (PyInt 1); db_dev := Scalar (PyInt (-80));
  to_zero := Scalar (PyInt 1);
  number_of_samples := 0; sample_rate := PyInt 100
|}.

(** A zero-length request whose segments are shorter than one sample
    each. *)
Definition cfg_all_empty : adsr_args := {|
  envelope_duration := PyInt 0;
  attack_duration := PyFloat 0.5; decay_duration := PyInt 0;
  sustain_level := PyInt (-20); release_duration := PyFloat 0.5;
  transition := "linear";
  alpha := Scalar (PyInt 1); db_dev := Scalar (PyInt (-80));
  to_zero := Scalar (PyInt 1);
  number_of_samples := 0; sample_rate := PyInt 100
|}.

(** The defaults with [attack_duration=0]. *)
Definition cfg_zero_attack : adsr_args := {|
  envelope_duration := PyInt 2;
  attack_duration := PyInt 0; decay_duration := PyInt 20;
  sustain_level := PyInt (-5); release_duration := PyInt 50;
  transition := "exp";
  alpha := Scalar (PyInt 1); db_dev := Scalar (PyInt (-80));
  to_zero := Scalar (PyInt 1);
  number_of_samples := 0; sample_rate := PyInt 44100
|}.

(** The defaults with [envelope_duration=0]. *)
Definition cfg_zero_duration : adsr_args := {|
  envelope_duration := PyInt 0;
  attack_duration := PyInt 20; decay_duration := PyInt 20;
  sustain_level := PyInt (-5); release_duration := PyInt 50;
  transition := "exp";
  alpha := Scalar (PyInt 1); db_dev := Scalar (PyInt (-80));
  to_zero := Scalar (PyInt 1);
  number_of_samples := 0; sample_rate := PyInt 44100
|}.

(** [attack_duration=3000, decay_duration=3000, release_duration=3000,
    envelope_duration=1], the other arguments at their defaults. *)
Definition cfg_overlong : adsr_args := {|
  envelope_duration := PyInt 1;
  attack_duration := PyInt 3000; decay_duration := PyInt 3000;
  sustain_level := PyInt (-5); release_duration := PyInt 3000;
  transition := "exp";
  alpha := Scalar (PyInt 1); db_dev := Scalar (PyInt (-80));
  to_zero := Scalar (PyInt 1);
  number_of_samples := 0; sample_rate := PyInt 44100
|}.

(** The defaults with lists for the per-segment arguments, as the
    docstring describes them. *)
Definition cfg_per_segment : adsr_args := {|
  envelope_duration := PyInt 2;
  attack_duration := PyInt 20; decay_duration := PyInt 20;
  sustain_level := PyInt (-5); release_duration := PyInt 50;
  transition := "exp";
  alpha := PyList [PyInt 1; PyInt 1; PyInt 1];
  db_dev := PyList [PyInt (-80); PyInt (-80)];
  to_zero := PyList [PyInt 1; PyInt 1];
  number_of_samples := 0; sample_rate := PyInt 44100
|}.

(** [cfg_lin] with a negative [envelope_duration] and twelve samples
    asked for. *)
Definition cfg_negative_duration : adsr_args := {|
  envelope_duration := PyInt (-1);
  attack_duration := PyInt 20; decay_duration := PyInt 20;
  sustain_level := PyInt (-20); release_duration := PyInt 50;
  transition := "linear";
  alpha := Scalar (PyInt 1); db_dev := Scalar (PyInt (-80));
  to_zero := Scalar (PyInt 1);
  number_of_samples := 12; sample_rate := PyInt 100
|}.

(** [cfg_lin] with [sample_rate=0] and twelve samples asked for. *)
Definition cfg_zero_rate : adsr_args := {|
  envelope_duration := PyInt 1;
  attack_duration := PyInt 20; decay_duration := PyInt 20;
  sustain_level := PyInt (-20); release_duration := PyInt 50;
  transition := "linear";
  alpha := Scalar (PyInt 1); db_dev := Scalar (PyInt (-80));
  to_zero := Scalar (PyInt 1);
  number_of_samples := 12; sample_rate := PyInt 0
|}.

(** [cfg_lin] with [attack_duration=0]. *)
Definition cfg_lin_zero_attack : adsr_args := {|
  envelope_duration := PyInt 1;
  attack_duration := PyInt 0; decay_duration := PyInt 20;
  sustain_level := PyInt (-20); release_duration := PyInt 50;
  transition := "linear";
  alpha := Scalar (PyInt 1); db_dev := Scalar (PyInt (-80));
  to_zero := Scalar (PyInt 1);
  number_of_samples := 0; sample_rate := PyInt 100
|}.

(** The same with [to_zero] an ndarray of two values. *)
Definition cfg_nd_zero_attack : adsr_args := {|
  envelope_duration := PyInt 1;
  attack_duration := PyInt 0; decay_duration := PyInt 20;
  sustain_level := PyInt (-20); release_duration := PyInt 50;
  transition := "linear";
  alpha := Scalar (PyInt 1); db_dev := Scalar (PyInt (-80));
  to_zero := NdArray [1%float; 1%float];
  number_of_samples := 0; sample_rate := PyInt 100
|}.

(** Two signals of twelve samples. *)
Definition sig_left : list float :=
  map float_of_Z [1; 2; 3; 4; 5; 6; 7; 8; 9; 10; 11; 12].

Definition sig_right : list float :=
  map float_of_Z [12; 11; 10; 9; 8; 7; 6; 5; 4; 3; 2; 1].

End Examples.

(** ** [adsr_vibrato] (adsr.py, lines 121-122) *)

(** The keywords of [adsr] that a caller puts in [adsr_dict]; a field is
    [None] when the dictionary has no such key. *)
Record adsr_kwargs : Type := {
  kw_envelope_duration : option pynum;
  kw_attack_duration : option pynum;
  kw_decay_duration : option pynum;
  kw_sustain_level : option pynum;
  kw_release_duration : option pynum;
  kw_transition : option string;
  kw_alpha : option pyparam;
  kw_db_dev : option pyparam;
  kw_to_zero : option pyparam;
  kw_number_of_samples : option Z;
  kw_sample_rate : option pynum;
  kw_sonic_vector : option (option (list float))
}.

Definition keyword {A : Type} (given : option A) (default : A) : A :=
  match given with
  | Some a => a
  | None => default
  end.

(** The arguments [adsr] runs with: a keyword of the dictionary, else the
    default of the signature. *)
Definition bind_keywords (k : adsr_kwargs) : adsr_args := {|
  envelope_duration :=
    keyword (kw_envelope_duration k) (envelope_duration default_args);
  attack_duration :=
    keyword (kw_attack_duration k) (attack_duration default_args);
  decay_duration := keyword (kw_decay_duration k) (decay_duration default_args);
  sustain_level := keyword (kw_sustain_level k) (sustain_level default_args);
  release_duration :=
    keyword (kw_release_duration k) (release_duration default_args);
  transition := keyword (kw_transition k) (transition default_args);
  alpha := keyword (kw_alpha k) (alpha default_args);
  db_dev := keyword (kw_db_dev k) (db_dev default_args);
  to_zero := keyword (kw_to_zero k) (to_zero default_args);
  number_of_samples :=
    keyword (kw_number_of_samples k) (number_of_samples default_args);
  sample_rate := keyword (kw_sample_rate k) (sample_rate default_args)
|}.

Section AdsrVibrato.

Variable fade : fade_fn.
Variable loud : loud_fn.
Variable pow10 : float -> result float.
(** [note_with_vibrato] (imported from [..synths.notes]) and the type of
    its keyword dictionary. *)
Variable note_kwargs : Type.
Variable note_with_vibrato : note_kwargs -> result (list float).

(** [adsr] on the note that [note_with_vibrato] makes of [note_dict],
    with the keywords of [adsr_dict]: the note is computed first; a
    [sonic_vector] key in [adsr_dict] is then a second value for that
    keyword, a [TypeError]. *)
Definition adsr_vibrato (note_dict : note_kwargs) (adsr_dict : adsr_kwargs)
  : result (list float) :=
  note <- note_with_vibrato note_dict ;;
  match kw_sonic_vector adsr_dict with
  | Some _ => Raise TypeError
  | None => adsr fade loud pow10 (bind_keywords adsr_dict) (Some note)
  end.

End AdsrVibrato.

(** ** [music.utils] (src/music/utils.py) *)

Module Utils.

(** [db2Amp] (lines 8-10): [10.**(db_difference/20.)], for the power
    function [pow10]. *)
Definition db2Amp (pow10 : float -> result float) (db_difference : pynum)
  : result float :=
  x <- py_truediv db_difference (PyFloat 20%float) ;;
  pow10 x.

Fixpoint zip_add (a b : list float) : list float :=
  match a, b with
  | x :: a', y :: b' => (x + y)%float :: zip_add a' b'
  | _, _ => []
  end.

(** [a += b] for two one-dimensional arrays: element-wise on equal
    lengths, a length-one [b] is broadcast, any other [b] is a
    [ValueError]. *)
Definition iadd (a b : list float) : result (list float) :=
  if (length a =? length b)%nat then Ok (zip_add a b)
  else match b with
       | [y] => Ok (map (fun x => (x + y)%float) a)
       | _ => Raise ValueError
       end.

(** [mix] (lines 40-50).  [sound[:k] += xs] adds [xs] to the first [k]
    samples and leaves the others. *)
Definition mix {Self : Type} (self : Self) (list1 list2 : list float)
  : result (list float) :=
  let l1 := length list1 in
  let l2 := length list2 in
  if (l1 <? l2)%nat then
    sound <- iadd (repeat 0%float l2) list2 ;;
    head <- iadd (firstn l1 sound) list1 ;;
    Ok (head ++ skipn l1 sound)
  else
    sound <- iadd (repeat 0%float l1) list1 ;;
    head <- iadd (firstn l2 sound) list2 ;;
    Ok (head ++ skipn l2 sound).

(** A float array of shape (2, L), held as its L columns. *)
Definition array2 : Set := list (float * float).

(** What [mixS] is given for a sound: a one-dimensional sequence of
    samples, or a two-row array. *)
Inductive sound : Set :=
| Mono (samples : list float)
| Stereo (channels : array2).

(** [len(l)]. *)
Definition sound_len (l : sound) : nat :=
  match l with
  | Mono samples => length samples
  | Stereo _ => 2%nat
  end.

(** Lines 52-55: [if len(l) != 2: l = n.array((l, l))]. *)
Definition two_rows (l : sound) : sound :=
  match l with
  | Mono samples =>
      if negb (length samples =? 2)%nat
      then Stereo (map (fun x => (x, x)) samples)
      else l
  | Stereo _ => l
  end.

(** [n.zeros((2, k))]. *)
Definition zeros2 (k : nat) : array2 := repeat (0%float, 0%float) k.

(** [a + b] for two arrays of the same shape (2, L). *)
Fixpoint add2 (a b : array2) : array2 :=
  match a, b with
  | (x0, x1) :: a', (y0, y1) :: b' =>
      ((x0 + y0)%float, (x1 + y1)%float) :: add2 a' b'
  | _, _ => []
  end.

(** [mixS] (lines 51-68).  [H] of two two-row arrays joins them column
    after column.  [len(l[0])] on a sequence of floats is a
    [TypeError]. *)
Definition mixS (l1 l2 : sound) (end_ : bool) : result array2 :=
  match two_rows l1, two_rows l2 with
  | Stereo a1, Stereo a2 =>
      if (length a2 <? length a1)%nat then
        let l2_ :=
          if negb end_ then a2 ++ zeros2 (length a1 - length a2)
          else zeros2 (length a1 - length a2) ++ a2 in
        Ok (add2 a1 l2_)
      else
        let l1_ :=
          if negb end_ then a1 ++ zeros2 (length a2 - length a1)
          else zeros2 (length a2 - length a1) ++ a1 in
        Ok (add2 l1_ a2)
  | _, _ => Raise TypeError
  end.

(** The default [l2=[]]. *)
Definition no_sound : sound := Mono [].

(** The number of samples per channel. *)
Definition width (l : sound) : nat :=
  match l with
  | Mono samples => length samples
  | Stereo channels => length channels
  end.

(** A one-dimensional sequence of exactly two samples. *)
Definition two_sample_mono (l : sound) : bool :=
  match l with
  | Mono samples => (length samples =? 2)%nat
  | Stereo _ => false
  end.

(** The sound played backwards. *)
Definition reversed (l : sound) : sound :=
  match l with
  | Mono samples => Mono (rev samples)
  | Stereo channels => Stereo (rev channels)
  end.

(** A float that is neither an infinity nor nan. *)
Definition finite (f : float) : bool :=
  match Prim2SF f with
  | S754_zero _ | S754_finite _ _ _ => true
  | _ => false
  end.

(** A float that is neither a zero nor nan. *)
Definition nonzero (f : float) : bool :=
  match Prim2SF f with
  | S754_infinity _ | S754_finite _ _ _ => true
  | _ => false
  end.

(** [minimum] and [maximum] of two floats as NumPy reduces with them: a
    nan wins; of two equal values (the zeros of either sign) the one
    met first is kept. *)
Definition fmin (acc x : float) : float :=
  if PrimFloat.is_nan acc then acc
  else if PrimFloat.is_nan x then x
  else if (x <? acc)%float then x else acc.

Definition fmax (acc x : float) : float :=
  if PrimFloat.is_nan acc then acc
  else if PrimFloat.is_nan x then x
  else if (acc <? x)%float then x else acc.

(** [vector.min()] and [vector.max()]: a [ValueError] on an empty
    array. *)
Definition amin (vector : list float) : result float :=
  match vector with
  | [] => Raise ValueError
  | x :: rest => Ok (fold_left fmin rest x)
  end.

Definition amax (vector : list float) : result float :=
  match vector with
  | [] => Raise ValueError
  | x :: rest => Ok (fold_left fmax rest x)
  end.

(** [normalize] (lines 26-28), on a float64 array:
    [-1+2*(vector-vector.min())/(vector.max()-vector.min())]. *)
Definition normalize (vector : list float) : result (list float) :=
  lo <- amin vector ;;
  let doubled := map (fun x => (2 * (x - lo))%float) vector in
  hi <- amax vector ;;
  lo' <- amin vector ;;
  let range := (hi - lo')%float in
  Ok (map (fun x => (-1 + x / range)%float) doubled).

End Utils.

(** ** [music.structures.permutations] (src/music/structures/permutations.py) *)

Module Permutations.

(** A sympy [Permutation] as [dist] reads it: its [size] and the list
    [support()] of the points it moves. *)
Record permutation : Set := {
  size : Z;
  support : list Z
}.

(** [l[i]]. *)
Definition item (l : list Z) (i : nat) : result Z :=
  match nth_error l i with
  | Some x => Ok x
  | None => Raise IndexError
  end.

(** [z >= h] for an int [z]: Python compares an int and a float by their
    exact values. *)
Definition int_ge (z : Z) (h : pynum) : bool :=
  match h with
  | PyInt y => y <=? z
  | PyFloat f =>
      match Prim2SF f with
      | S754_nan => false
      | S754_infinity s => s
      | S754_zero _ => 0 <=? z
      | S754_finite s m e => Qle_bool (finite_value s m e) (inject_Z z)
      end
  end.

(** [dist] (lines 66-74). *)
Definition dist (swap : permutation) : result Z :=
  half <-
    (if size swap mod 2 =? 0
     then h <- py_truediv (PyInt (size swap)) (PyInt 2) ;; Ok (PyFloat h)
     else Ok (PyInt (size swap / 2 + 1))) ;;
  b <- item (support swap) 1 ;;
  a <- item (support swap) 0 ;;
  let diff := Z.abs (b - a) in
  Ok (if int_ge diff half then size swap - diff else diff).

End Permutations.

(** ** Keyword dictionaries and a note for the examples *)

Module MoreExamples.

(** An [adsr_dict] for the linear envelope of [Examples.cfg_lin]. *)
Definition lin_keywords : adsr_kwargs := {|
  kw_envelope_duration := Some (PyInt 1);
  kw_attack_duration := None; kw_decay_duration := None;
  kw_sustain_level := Some (PyInt (-20));
  kw_release_duration := None;
  kw_transition := Some "linear"%string;
  kw_alpha := None; kw_db_dev := None; kw_to_zero := None;
  kw_number_of_samples := None;
  kw_sample_rate := Some (PyInt 100);
  kw_sonic_vector := None
|}.

(** The same with a [sonic_vector] key of its own. *)
Definition clashing_keywords : adsr_kwargs := {|
  kw_envelope_duration := Some (PyInt 1);
  kw_attack_duration := None; kw_decay_duration := None;
  kw_sustain_level := Some (PyInt (-20));
  kw_release_duration := None;
  kw_transition := Some "linear"%string;
  kw_alpha := None; kw_db_dev := None; kw_to_zero := None;
  kw_number_of_samples := None;
  kw_sample_rate := Some (PyInt 100);
  kw_sonic_vector := Some (Some Examples.sig_right)
|}.

(** A stand-in for [note_with_vibrato]: the twelve samples of
    [Examples.sig_left], whatever the note asked for. *)
Definition twelve_samples (_ : unit) : result (list float) :=
  Ok Examples.sig_left.

(** [adsr_vibrato] with the linear generators and that note. *)
Definition lin_adsr_vibrato : unit -> adsr_kwargs -> result (list float) :=
  adsr_vibrato Examples.lin_fade (Examples.lin_loud Examples.pow10_int)
    Examples.pow10_int unit twelve_samples.

(** The transposition of the points 0 and 2 among four. *)
Definition swap_0_2 : Permutations.permutation := {|
  Permutations.size := 4;
  Permutations.support := [0; 2]
|}.

(** The identity on four points: it moves none. *)
Definition identity_4 : Permutations.permutation := {|
  Permutations.size := 4;
  Permutations.support := []
|}.

End MoreExamples.

(** * Properties *)

(** ** Binary64 facts *)

(** Multiplying by [1.0] is exact for every binary64 value, the special
    ones included. *)
Lemma SF64mul_one_l (x : spec_float) :
  valid_binary x = true -> SF64mul (Prim2SF 1%float) x = x.
Proof.
  intros Hv.
  change (Prim2SF 1%float) with (S754_finite false 4503599627370496 (-52)).
  destruct x as [s | s | | s m e]; try reflexivity.
  unfold SF64mul, SFmul.
  simpl in Hv. unfold bounded, canonical_mantissa in Hv.
  apply andb_true_iff in Hv. destruct Hv as [Hc Hb].
  apply Z.eqb_eq in Hc.
  unfold binary_round_aux.
  assert (Hd : Zdigits2 (Z.pos (4503599627370496 * m))
               = Z.pos (digits2_pos m) + 52).
  { unfold Zdigits2. cbn [Pos.mul digits2_pos].
    repeat rewrite Pos2Z.inj_succ. lia. }
  unfold shr_fexp at 1. rewrite Hd.
  replace (Z.pos (digits2_pos m) + 52 + (-52 + e))
    with (Z.pos (digits2_pos m) + e) by lia.
  rewrite Hc.
  replace (e - (-52 + e)) with 52 by lia.
  unfold shr.
  cbn [Pos.mul shr_record_of_loc].
  cbn [iter_pos shr_1 shr_m shr_r shr_s orb].
  replace (-52 + e + 52) with e by lia.
  cbn [loc_of_shr_record shr_m shr_r shr_s round_nearest_even].
  unfold shr_fexp. cbn [Zdigits2]. rewrite Hc, Z.sub_diag.
  cbn [shr shr_record_of_loc shr_m].
  simpl xorb. rewrite Hb. reflexivity.
Qed.

Lemma float_mul_one_l (x : float) : (1 * x)%float = x.
Proof.
  apply Prim2SF_inj. rewrite mul_spec.
  apply SF64mul_one_l, Prim2SF_valid.
Qed.

(** ** The error monad *)

Lemma bind_Ok_inv {A B : Type} (c : result A) (k : A -> result B) (b : B) :
  bind c k = Ok b -> exists a, c = Ok a /\ k a = Ok b.
Proof.
  destruct c as [a | e]; simpl; intros H; [eauto | discriminate].
Qed.

Lemma bind_raises_l {A B : Type} (c : result A) (k : A -> result B) :
  raises c -> raises (bind c k).
Proof.
  intros [e ->]. exists e. reflexivity.
Qed.

Lemma bind_raises_r {A B : Type} (c : result A) (k : A -> result B) :
  (forall a, c = Ok a -> raises (k a)) -> raises (bind c k).
Proof.
  intros H. destruct c as [a | e]; simpl.
  - apply H. reflexivity.
  - exists e. reflexivity.
Qed.

Lemma raises_not_Ok {A : Type} (c : result A) (a : A) :
  raises c -> c <> Ok a.
Proof.
  intros [e ->]. discriminate.
Qed.

(** ** Arrays *)

Lemma scale_ones (n : nat) (c : float) :
  Np.scale (repeat 1%float n) c = repeat c n.
Proof.
  unfold Np.scale. induction n as [| n IH]; simpl.
  - reflexivity.
  - rewrite float_mul_one_l, IH. reflexivity.
Qed.

Lemma scale_length (a : list float) (c : float) :
  length (Np.scale a c) = length a.
Proof.
  apply length_map.
Qed.

Lemma ones_Ok (k : Z) :
  0 <= k -> Np.ones k = Ok (repeat 1%float (Z.to_nat k)).
Proof.
  intros H. unfold Np.ones.
  destruct (Z.ltb_spec k 0); [lia | reflexivity].
Qed.

Lemma ones_negative (k : Z) : k < 0 -> Np.ones k = Raise ValueError.
Proof.
  intros H. unfold Np.ones.
  destruct (Z.ltb_spec k 0); [reflexivity | lia].
Qed.

Lemma zip_mul_length (a b : list float) :
  length a = length b -> length (Np.zip_mul a b) = length a.
Proof.
  revert b. induction a as [| x a IH]; intros [| y b] H; simpl in *;
    try reflexivity; try discriminate.
  f_equal. apply IH. congruence.
Qed.

Lemma mul_same_length (a b : list float) :
  length a = length b -> Np.mul a b = Ok (Np.zip_mul a b).
Proof.
  intros H. unfold Np.mul. rewrite H, Nat.eqb_refl. reflexivity.
Qed.

(** The length of a product depends on the operands' lengths only. *)
Lemma mul_length_congr (a a' b out out' : list float) :
  length a = length a' ->
  Np.mul a b = Ok out -> Np.mul a' b = Ok out' -> length out = length out'.
Proof.
  intros Hl. unfold Np.mul. rewrite <- Hl.
  destruct (length a =? length b)%nat eqn:E.
  - apply Nat.eqb_eq in E. intros [= <-] [= <-].
    rewrite !zip_mul_length; congruence.
  - destruct b as [| y [| y' b]];
      destruct a as [| x [| x' a]]; destruct a' as [| z [| z' a']];
      simpl in Hl; try discriminate; simpl; intros H1 H2;
      try discriminate; injection H1 as <-; injection H2 as <-;
      simpl; rewrite ?length_map; simpl; congruence.
Qed.

(** ** The Envelope Assembler *)

Section AdsrProperties.

Variable fade : fade_fn.
Variable loud : loud_fn.
Variable pow10 : float -> result float.

Local Abbreviation envelope' := (envelope fade loud pow10).
Local Abbreviation adsr' := (adsr fade loud pow10).
Local Abbreviation adsr_stereo' := (adsr_stereo fade loud pow10).

(** The envelope when every step of lines 103-114 goes through. *)
Lemma envelope_Ok c L a d r pA pR att dec aS rel :
  param_truediv (to_zero c) (attack_duration c) = Ok pA ->
  fade (Some false) (transition c) (alpha c) (db_dev c) pA a = Ok att ->
  loud (sustain_level c) (transition c) (alpha c) d = Ok dec ->
  sustain_amplitude pow10 c = Ok aS ->
  0 <= L - (a + r + d) ->
  param_truediv (to_zero c) (release_duration c) = Ok pR ->
  fade None (transition c) (alpha c) (db_dev c) pR r = Ok rel ->
  envelope' c L a d r
  = Ok (assembled att dec aS (Z.to_nat (L - (a + r + d))) rel).
Proof.
  intros HpA Hatt Hdec HaS Hk HpR Hrel.
  unfold envelope.
  rewrite HpA; simpl. rewrite Hatt; simpl. rewrite Hdec; simpl.
  rewrite HaS; simpl. rewrite (ones_Ok _ Hk); simpl.
  rewrite HpR; simpl. rewrite Hrel; simpl.
  rewrite scale_ones, app_nil_r. reflexivity.
Qed.

(** Conversely, an envelope that was assembled went through every step. *)
Lemma envelope_Ok_inv c L a d r AD :
  envelope' c L a d r = Ok AD ->
  exists pA att dec aS pR rel,
    param_truediv (to_zero c) (attack_duration c) = Ok pA /\
    fade (Some false) (transition c) (alpha c) (db_dev c) pA a = Ok att /\
    loud (sustain_level c) (transition c) (alpha c) d = Ok dec /\
    sustain_amplitude pow10 c = Ok aS /\
    0 <= L - (a + r + d) /\
    param_truediv (to_zero c) (release_duration c) = Ok pR /\
    fade None (transition c) (alpha c) (db_dev c) pR r = Ok rel /\
    AD = assembled att dec aS (Z.to_nat (L - (a + r + d))) rel.
Proof.
  unfold envelope. intros H.
  apply bind_Ok_inv in H. destruct H as (pA & HpA & H).
  apply bind_Ok_inv in H. destruct H as (att & Hatt & H).
  apply bind_Ok_inv in H. destruct H as (dec & Hdec & H).
  apply bind_Ok_inv in H. destruct H as (aS & HaS & H).
  apply bind_Ok_inv in H. destruct H as (ones & Hones & H).
  apply bind_Ok_inv in H. destruct H as (pR & HpR & H).
  apply bind_Ok_inv in H. destruct H as (rel & Hrel & H).
  unfold Np.ones in Hones.
  destruct (Z.ltb_spec (L - (a + r + d)) 0) as [Hneg | Hpos];
    [discriminate |].
  injection Hones as <-. injection H as <-.
  exists pA, att, dec, aS, pR, rel.
  repeat (split; [assumption |]).
  simpl. rewrite scale_ones, app_nil_r. reflexivity.
Qed.

(** A negative sustain count stops the assembly, whatever the generators
    do. *)
Lemma envelope_negative_raises c L a d r :
  L - (a + r + d) < 0 -> raises (envelope' c L a d r).
Proof.
  intros Hneg. unfold envelope.
  apply bind_raises_r; intros pA _.
  apply bind_raises_r; intros att _.
  apply bind_raises_r; intros dec _.
  apply bind_raises_r; intros aS _.
  apply bind_raises_l.
  exists ValueError. apply ones_negative, Hneg.
Qed.

(** [adsr] in terms of the lengths and the envelope. *)
Lemma adsr_steps c sv L a d r :
  total_length c sv = Ok L ->
  segment_samples (attack_duration c) (sample_rate c) = Ok a ->
  segment_samples (decay_duration c) (sample_rate c) = Ok d ->
  segment_samples (release_duration c) (sample_rate c) = Ok r ->
  adsr' c sv
  = (AD <- envelope' c L a d r ;;
     match sv with Some s => Np.mul s AD | None => Ok AD end).
Proof.
  intros HL Ha Hd Hr. unfold adsr.
  rewrite HL, Ha, Hd, Hr. reflexivity.
Qed.

Lemma adsr_Ok_inv c sv out :
  adsr' c sv = Ok out ->
  exists L a d r AD,
    total_length c sv = Ok L /\
    segment_samples (attack_duration c) (sample_rate c) = Ok a /\
    segment_samples (decay_duration c) (sample_rate c) = Ok d /\
    segment_samples (release_duration c) (sample_rate c) = Ok r /\
    envelope' c L a d r = Ok AD /\
    match sv with Some s => Np.mul s AD | None => Ok AD end = Ok out.
Proof.
  unfold adsr. intros H.
  apply bind_Ok_inv in H. destruct H as (L & HL & H).
  apply bind_Ok_inv in H. destruct H as (a & Ha & H).
  apply bind_Ok_inv in H. destruct H as (d & Hd & H).
  apply bind_Ok_inv in H. destruct H as (r & Hr & H).
  apply bind_Ok_inv in H. destruct H as (AD & HAD & H).
  exists L, a, d, r, AD. repeat (split; [assumption |]). exact H.
Qed.

Lemma adsr_negative_remainder c sv L a d r :
  total_length c sv = Ok L ->
  segment_samples (attack_duration c) (sample_rate c) = Ok a ->
  segment_samples (decay_duration c) (sample_rate c) = Ok d ->
  segment_samples (release_duration c) (sample_rate c) = Ok r ->
  L < a + d + r ->
  raises (adsr' c sv).
Proof.
  intros HL Ha Hd Hr Hlt.
  rewrite (adsr_steps _ _ _ _ _ _ HL Ha Hd Hr).
  apply bind_raises_l, envelope_negative_raises. lia.
Qed.

Lemma assembled_length att dec aS k rel :
  length (assembled att dec aS k rel)
  = (length att + length dec + k + length rel)%nat.
Proof.
  unfold assembled.
  rewrite !length_app, repeat_length, scale_length. lia.
Qed.

(** C1 (as amended): for every configuration whose attack, decay and
    release sample counts sum to at most the total length [Lambda], whose
    zero-approach fractions [to_zero / attack_duration] and
    [to_zero / release_duration] are defined, whose sustain amplitude
    [10 ** (sustain_level / 20.)] is in range, and for which [fade] and
    [loud] return exactly the number of samples asked for, the envelope is
    the attack, the decay, the sustain amplitude repeated
    [Lambda - attack - decay - release] times and the release, in that
    order; it has exactly [Lambda] samples; [adsr] returns it when no
    signal is given and its element-wise product with the signal, again
    [Lambda] samples long, otherwise. *)
Theorem adsr_valid_concat c sv L a d r pA pR att dec aS rel :
  total_length c sv = Ok L ->
  segment_samples (attack_duration c) (sample_rate c) = Ok a ->
  segment_samples (decay_duration c) (sample_rate c) = Ok d ->
  segment_samples (release_duration c) (sample_rate c) = Ok r ->
  a + d + r <= L ->
  param_truediv (to_zero c) (attack_duration c) = Ok pA ->
  fade (Some false) (transition c) (alpha c) (db_dev c) pA a = Ok att ->
  Z.of_nat (length att) = a ->
  loud (sustain_level c) (transition c) (alpha c) d = Ok dec ->
  Z.of_nat (length dec) = d ->
  sustain_amplitude pow10 c = Ok aS ->
  param_truediv (to_zero c) (release_duration c) = Ok pR ->
  fade None (transition c) (alpha c) (db_dev c) pR r = Ok rel ->
  Z.of_nat (length rel) = r ->
  Z.of_nat (length (assembled att dec aS (Z.to_nat (L - a - d - r)) rel)) = L
  /\ match sv with
     | None =>
         adsr' c None
         = Ok (assembled att dec aS (Z.to_nat (L - a - d - r)) rel)
     | Some s =>
         adsr' c (Some s)
         = Ok (Np.zip_mul s
                 (assembled att dec aS (Z.to_nat (L - a - d - r)) rel))
         /\ Z.of_nat (length (Np.zip_mul s
                 (assembled att dec aS (Z.to_nat (L - a - d - r)) rel))) = L
     end.
Proof.
  intros HL Ha Hd Hr Hsum HpA Hatt Latt Hdec Ldec HaS HpR Hrel Lrel.
  assert (Hk : 0 <= L - (a + r + d)) by lia.
  assert (Hlen : Z.of_nat
            (length (assembled att dec aS (Z.to_nat (L - a - d - r)) rel)) = L).
  { rewrite assembled_length. lia. }
  split; [exact Hlen |].
  pose proof (envelope_Ok c L _ _ _ _ _ _ _ _ _ HpA Hatt Hdec HaS Hk HpR Hrel) as HAD.
  replace (L - (a + r + d)) with (L - a - d - r) in HAD by lia.
  destruct sv as [s |].
  - assert (Hs : length s
              = length (assembled att dec aS (Z.to_nat (L - a - d - r)) rel)).
    { unfold total_length in HL. injection HL as HL. lia. }
    split.
    + rewrite (adsr_steps _ _ _ _ _ _ HL Ha Hd Hr), HAD. simpl.
      apply mul_same_length, Hs.
    + rewrite zip_mul_length by exact Hs. rewrite Hs. exact Hlen.
  - rewrite (adsr_steps _ _ _ _ _ _ HL Ha Hd Hr), HAD. reflexivity.
Qed.

(** C2: whenever the attack, decay and release sample counts together
    exceed the total length [Lambda], [adsr] raises and returns no
    buffer, whatever [fade] and [loud] do; when the steps before line 109
    go through, the error is the [ValueError] of [np.ones] on a negative
    count. *)
Theorem adsr_negative_sustain_raises c sv L a d r :
  total_length c sv = Ok L ->
  segment_samples (attack_duration c) (sample_rate c) = Ok a ->
  segment_samples (decay_duration c) (sample_rate c) = Ok d ->
  segment_samples (release_duration c) (sample_rate c) = Ok r ->
  L < a + d + r ->
  raises (adsr fade loud pow10 c sv)
  /\ (forall buf, adsr fade loud pow10 c sv <> Ok buf)
  /\ (forall pA att dec aS,
        param_truediv (to_zero c) (attack_duration c) = Ok pA ->
        fade (Some false) (transition c) (alpha c) (db_dev c) pA a = Ok att ->
        loud (sustain_level c) (transition c) (alpha c) d = Ok dec ->
        sustain_amplitude pow10 c = Ok aS ->
        adsr fade loud pow10 c sv = Raise ValueError).
Proof.
  intros HL Ha Hd Hr Hlt.
  pose proof (adsr_negative_remainder _ _ _ _ _ _ HL Ha Hd Hr Hlt) as H.
  split; [exact H |].
  split; [intros buf; apply raises_not_Ok, H |].
  intros pA att dec aS HpA Hatt Hdec HaS.
  rewrite (adsr_steps _ _ _ _ _ _ HL Ha Hd Hr). unfold envelope.
  rewrite HpA; simpl. rewrite Hatt; simpl. rewrite Hdec; simpl.
  rewrite HaS; simpl. rewrite ones_negative by lia. reflexivity.
Qed.

(** The example of the specification: [attack_duration=3000,
    decay_duration=3000, release_duration=3000, envelope_duration=1]
    asks for 396900 segment samples out of 44100 and raises. *)
Lemma adsr_overlong_example_raises :
  total_length Examples.cfg_overlong None = Ok 44100 /\
  segment_samples (PyInt 3000) (PyInt 44100) = Ok 132300 /\
  raises (adsr' Examples.cfg_overlong None).
Proof.
  split; [reflexivity |]. split; [reflexivity |].
  apply adsr_negative_remainder with (L := 44100) (a := 132300)
    (d := 132300) (r := 132300); try reflexivity.
Qed.

(** Under the generators' contract an envelope has [Lambda] samples. *)
Lemma envelope_length c L a d r AD :
  fade_contract fade -> loud_contract loud ->
  envelope' c L a d r = Ok AD -> Z.of_nat (length AD) = L.
Proof.
  intros Hf Hl H.
  apply envelope_Ok_inv in H.
  destruct H as (pA & att & dec & aS & pR & rel
                 & _ & Hatt & Hdec & _ & Hk & _ & Hrel & ->).
  apply Hf in Hatt, Hrel. apply Hl in Hdec.
  rewrite assembled_length. lia.
Qed.

(** The envelope does not read [number_of_samples]. *)
Lemma envelope_with_number_of_samples c n L a d r :
  envelope' (with_number_of_samples c n) L a d r = envelope' c L a d r.
Proof.
  reflexivity.
Qed.

(** The product of two arrays of equal length, sample by sample. *)
Lemma zip_mul_combine (a b : list float) :
  Np.zip_mul a b = map (fun p => (fst p * snd p)%float) (combine a b).
Proof.
  revert b. induction a as [| x a IH]; intros [| y b]; simpl;
    try reflexivity.
  rewrite IH. reflexivity.
Qed.

(** A signal shorter than the attack, decay and release together makes
    [adsr] raise, whatever the generators do: with the default
    durations at 44100 Hz, every signal under 3969 samples. *)
Lemma adsr_default_short_signal_raises s :
  Z.of_nat (length s) < 3969 ->
  raises (adsr fade loud pow10 default_args (Some s)).
Proof.
  intros H.
  apply adsr_negative_remainder with (L := Z.of_nat (length s))
    (a := 882) (d := 882) (r := 2205); try reflexivity. lia.
Qed.

(** C3 (as amended): for a non-empty signal [s], [adsr] with
    [sonic_vector=s] raises whatever the call with the same
    configuration, no signal and [number_of_samples=len(s)] raises; and
    when that call returns an envelope (the generators returning as
    many samples as asked for), the envelope has [len(s)] samples and
    [adsr] returns the buffer of [len(s)] samples whose sample [i] is
    [s[i] * envelope[i]]. *)
Theorem adsr_signal_is_product c s :
  s <> [] ->
  (forall e,
     adsr fade loud pow10
       (with_number_of_samples c (Z.of_nat (length s))) None = Raise e ->
     adsr fade loud pow10 c (Some s) = Raise e)
  /\ (fade_contract fade -> loud_contract loud ->
      forall env,
        adsr fade loud pow10
          (with_number_of_samples c (Z.of_nat (length s))) None = Ok env ->
        length env = length s
        /\ adsr fade loud pow10 c (Some s)
           = Ok (map (fun p => (fst p * snd p)%float) (combine s env))
        /\ length (map (fun p => (fst p * snd p)%float) (combine s env))
           = length s
        /\ forall i x e,
             nth_error s i = Some x -> nth_error env i = Some e ->
             nth_error (map (fun p => (fst p * snd p)%float) (combine s env)) i
             = Some (x * e)%float).
Proof.
  intros Hs.
  assert (Hn : Z.of_nat (length s) <> 0).
  { destruct s; [congruence | simpl; lia]. }
  assert (HL : total_length
                 (with_number_of_samples c (Z.of_nat (length s))) None
               = Ok (Z.of_nat (length s))).
  { unfold total_length. simpl.
    destruct (Z.eqb_spec (Z.of_nat (length s)) 0); [contradiction |].
    reflexivity. }
  assert (Heq : adsr' c (Some s)
    = (env <- adsr' (with_number_of_samples c (Z.of_nat (length s))) None ;;
       Np.mul s env)).
  { unfold adsr at 2. rewrite HL. unfold adsr. simpl.
    change (total_length c (Some s)) with (@Ok Z (Z.of_nat (length s))).
    simpl.
    destruct (segment_samples (attack_duration c) (sample_rate c))
      as [a |]; [simpl | reflexivity].
    destruct (segment_samples (decay_duration c) (sample_rate c))
      as [d |]; [simpl | reflexivity].
    destruct (segment_samples (release_duration c) (sample_rate c))
      as [r |]; [simpl | reflexivity].
    rewrite envelope_with_number_of_samples.
    destruct (envelope' c (Z.of_nat (length s)) a d r); reflexivity. }
  split.
  { intros e He. rewrite Heq, He. reflexivity. }
  intros Hf Hl env Henv.
  assert (Hlen : length s = length env).
  { pose proof Henv as Henv'. apply adsr_Ok_inv in Henv'.
    destruct Henv' as (L & a & d & r & AD & HL' & _ & _ & _ & HAD & Hout).
    injection Hout as <-.
    rewrite HL in HL'. injection HL' as <-.
    apply (envelope_length _ _ _ _ _ _ Hf Hl) in HAD. lia. }
  split; [symmetry; exact Hlen |].
  split.
  { rewrite Heq, Henv. simpl.
    rewrite (mul_same_length _ _ Hlen), zip_mul_combine. reflexivity. }
  split.
  { rewrite length_map, length_combine, <- Hlen. apply Nat.min_id. }
  intros i x e Hx He.
  rewrite nth_error_map.
  assert (Hc : nth_error (combine s env) i = Some (x, e)).
  { clear - Hx He. revert i env Hx He.
    induction s as [| y s IH]; intros [| i] [| z env] Hx He;
      simpl in *; try discriminate.
    - congruence.
    - apply IH; assumption. }
  rewrite Hc. reflexivity.
Qed.

(** What a call with a signal returns, in terms of the envelope. *)
Lemma adsr_signal_Ok_inv c s out :
  adsr' c (Some s) = Ok out ->
  exists a d r AD,
    segment_samples (attack_duration c) (sample_rate c) = Ok a /\
    segment_samples (decay_duration c) (sample_rate c) = Ok d /\
    segment_samples (release_duration c) (sample_rate c) = Ok r /\
    envelope' c (Z.of_nat (length s)) a d r = Ok AD /\
    Np.mul s AD = Ok out.
Proof.
  intros H. apply adsr_Ok_inv in H.
  destruct H as (L & a & d & r & AD & HL & Ha & Hd & Hr & HAD & Hout).
  unfold total_length in HL. injection HL as <-.
  exists a, d, r, AD. repeat (split; [assumption |]). exact Hout.
Qed.

(** C5: on a pair of signals of equal length, [adsr_stereo] returns the
    two rows [adsr sig1] and [adsr sig2], computed with the configuration
    it was given (and raises what the first failing call raises); with no
    signal both rows are the envelope [adsr] returns for that
    configuration with no signal. *)
Theorem adsr_stereo_rows c :
  (forall sig1 sig2,
     length sig1 = length sig2 ->
     adsr_stereo fade loud pow10 c (Some [sig1; sig2])
     = (r0 <- adsr fade loud pow10 c (Some sig1) ;;
        r1 <- adsr fade loud pow10 c (Some sig2) ;;
        Ok [r0; r1]))
  /\ adsr_stereo fade loud pow10 c None
     = (env <- adsr fade loud pow10 c None ;; Ok [env; env]).
Proof.
  split.
  - intros sig1 sig2 Hlen. unfold adsr_stereo, row. simpl.
    destruct (adsr' c (Some sig1)) as [r0 |] eqn:E0; [simpl | reflexivity].
    destruct (adsr' c (Some sig2)) as [r1 |] eqn:E1; [simpl | reflexivity].
    apply adsr_signal_Ok_inv in E0, E1.
    destruct E0 as (a & d & r & AD & Ha & Hd & Hr & HAD & H0).
    destruct E1 as (a' & d' & r' & AD' & Ha' & Hd' & Hr' & HAD' & H1).
    rewrite Ha in Ha'. injection Ha' as <-.
    rewrite Hd in Hd'. injection Hd' as <-.
    rewrite Hr in Hr'. injection Hr' as <-.
    rewrite <- Hlen, HAD in HAD'. injection HAD' as <-.
    unfold Np.vstack.
    rewrite (mul_length_congr _ _ _ _ _ Hlen H0 H1), Nat.eqb_refl.
    reflexivity.
  - unfold adsr_stereo. simpl.
    destruct (adsr' c None) as [env |]; [simpl | reflexivity].
    unfold Np.vstack. rewrite Nat.eqb_refl. reflexivity.
Qed.

(** C9: in every envelope [adsr] assembles, the release segment (the
    last one) is the curve [fade] returns for the release sample count,
    called as the release is with [fade_out] left at its default,
    multiplied sample by sample by the sustain amplitude
    [10 ** (sustain_level / 20.)]; a curve that starts at [1.0]
    therefore gives a release that starts at exactly the sustain
    amplitude, and in the envelope returned with no signal (the
    generators returning as many samples as asked for) the release is
    the last [Lambda_R] samples. *)
Theorem adsr_release_scaled_by_sustain c sv out :
  adsr fade loud pow10 c sv = Ok out ->
  exists L a d r pR x aS att dec curve,
    total_length c sv = Ok L /\
    segment_samples (attack_duration c) (sample_rate c) = Ok a /\
    segment_samples (decay_duration c) (sample_rate c) = Ok d /\
    segment_samples (release_duration c) (sample_rate c) = Ok r /\
    py_truediv (sustain_level c) (PyFloat 20%float) = Ok x /\
    pow10 x = Ok aS /\
    param_truediv (to_zero c) (release_duration c) = Ok pR /\
    fade None (transition c) (alpha c) (db_dev c) pR r = Ok curve /\
    envelope fade loud pow10 c L a d r
    = Ok (att ++ dec ++ repeat aS (Z.to_nat (L - (a + r + d)))
            ++ map (fun v => (v * aS)%float) curve) /\
    match sv with
    | None =>
        out = att ++ dec ++ repeat aS (Z.to_nat (L - (a + r + d)))
                ++ map (fun v => (v * aS)%float) curve
    | Some s =>
        Np.mul s (att ++ dec ++ repeat aS (Z.to_nat (L - (a + r + d)))
                    ++ map (fun v => (v * aS)%float) curve) = Ok out
    end /\
    (forall rest,
       curve = 1%float :: rest ->
       nth_error (map (fun v => (v * aS)%float) curve) 0 = Some aS) /\
    (sv = None -> fade_contract fade -> loud_contract loud ->
     skipn (Z.to_nat (L - r)) out = map (fun v => (v * aS)%float) curve).
Proof.
  intros H. apply adsr_Ok_inv in H.
  destruct H as (L & a & d & r & AD & HL & Ha & Hd & Hr & HAD & Hout).
  pose proof HAD as HAD'.
  apply envelope_Ok_inv in HAD.
  destruct HAD as (pA & att & dec & aS & pR & rel
                   & _ & Hatt & Hdec & HaS & Hk & HpR & Hrel & ->).
  unfold sustain_amplitude in HaS.
  apply bind_Ok_inv in HaS. destruct HaS as (x & Hx & Hpow).
  exists L, a, d, r, pR, x, aS, att, dec, rel.
  do 8 (split; [assumption |]).
  split; [exact HAD' |].
  split.
  { destruct sv as [s |]; [exact Hout |].
    injection Hout as <-. reflexivity. }
  split.
  { intros rest ->. simpl. rewrite float_mul_one_l. reflexivity. }
  intros -> Hf Hl. injection Hout as <-.
  apply Hf in Hatt, Hrel. apply Hl in Hdec.
  unfold assembled, Np.scale.
  rewrite !app_assoc.
  replace (Z.to_nat (L - r))
    with (length ((att ++ dec)
                  ++ repeat aS (Z.to_nat (L - (a + r + d)))))
    by (rewrite !length_app, repeat_length; lia).
  rewrite skipn_app, skipn_all, Nat.sub_diag. reflexivity.
Qed.

End AdsrProperties.

(** ** Lengths *)

Lemma trunc_finite_exact (s : bool) (m : positive) (e : Z) :
  trunc_finite s m e = Qtrunc (finite_value s m e).
Proof.
  unfold trunc_finite, finite_value, Qtrunc.
  destruct (Z.leb_spec 0 e) as [He | He]; simpl Qnum; simpl Qden.
  - rewrite Z.quot_1_r, Z.shiftl_mul_pow2 by exact He.
    destruct s; [| reflexivity].
    change (Z.neg m) with (- Z.pos m). lia.
  - assert (Hp : 0 < 2 ^ (- e)) by (apply Z.pow_pos_nonneg; lia).
    rewrite Z2Pos.id by exact Hp.
    rewrite Z.shiftr_div_pow2 by lia.
    destruct s.
    + change (Z.neg m) with (- Z.pos m).
      rewrite Z.quot_opp_l by lia.
      rewrite Z.quot_div_nonneg by lia. reflexivity.
    + rewrite Z.quot_div_nonneg by lia. reflexivity.
Qed.

(** [int] of a float is the truncation of its exact value. *)
Lemma py_int_float_trunc (f : float) (z : Z) :
  py_int (PyFloat f) = Ok z ->
  exists q, float_value f = Some q /\ z = Qtrunc q.
Proof.
  unfold py_int, float_value.
  destruct (Prim2SF f) as [s | s | | s m e]; intros H;
    try discriminate; injection H as <-.
  - exists 0%Q. split; reflexivity.
  - exists (finite_value s m e). split; [reflexivity |].
    apply trunc_finite_exact.
Qed.

(** C4 (as amended): [adsr] takes as total length [Lambda] the length of
    [sonic_vector] when a signal is given, else [number_of_samples] when
    it is nonzero, else [int(envelope_duration * sample_rate)]; and it
    converts each of the attack, decay and release durations to
    [int(duration * sample_rate * 0.001)]; [int] leaves an integer as it
    is and truncates a float toward zero (it does not round to the
    nearest integer). *)
Theorem adsr_lengths_truncate (c : adsr_args) :
  (forall s, total_length c (Some s) = Ok (Z.of_nat (length s)))
  /\ (number_of_samples c <> 0 ->
      total_length c None = Ok (number_of_samples c))
  /\ (number_of_samples c = 0 ->
      total_length c None
      = (x <- py_mul (envelope_duration c) (sample_rate c) ;; py_int x))
  /\ (forall duration rate,
        segment_samples duration rate
        = (x <- py_mul duration rate ;;
           y <- py_mul x (PyFloat milli) ;;
           py_int y))
  /\ (forall fade loud pow10 sv,
        adsr fade loud pow10 c sv
        = (Lambda <- total_length c sv ;;
           Lambda_A <- segment_samples (attack_duration c) (sample_rate c) ;;
           Lambda_D <- segment_samples (decay_duration c) (sample_rate c) ;;
           Lambda_R <- segment_samples (release_duration c) (sample_rate c) ;;
           AD <- envelope fade loud pow10 c Lambda Lambda_A Lambda_D Lambda_R ;;
           match sv with Some s => Np.mul s AD | None => Ok AD end))
  /\ (forall z, py_int (PyInt z) = Ok z)
  /\ (forall f z,
        py_int (PyFloat f) = Ok z ->
        exists q, float_value f = Some q /\ z = Qtrunc q).
Proof.
  split; [reflexivity |].
  split.
  { intros Hn. unfold total_length.
    destruct (Z.eqb_spec (number_of_samples c) 0); [contradiction |].
    reflexivity. }
  split.
  { intros Hn. unfold total_length. rewrite Hn. reflexivity. }
  split; [reflexivity |].
  split; [reflexivity |].
  split; [reflexivity |].
  exact py_int_float_trunc.
Qed.

(** ** Errors *)

Section AdsrErrors.

Variable fade : fade_fn.
Variable loud : loud_fn.
Variable pow10 : float -> result float.

Local Abbreviation envelope' := (envelope fade loud pow10).
Local Abbreviation adsr' := (adsr fade loud pow10).

(** C6 (as amended): a zero-length request ([number_of_samples=0], no
    signal, [envelope_duration] yielding 0 samples) whose attack, decay
    and release durations yield 0 samples each, with the zero-approach
    fractions defined and the sustain amplitude in range, returns an
    empty buffer without error when [fade] and [loud] return empty
    sequences for 0 samples. *)
Theorem adsr_zero_length_empty c pA pR aS :
  number_of_samples c = 0 ->
  (x <- py_mul (envelope_duration c) (sample_rate c) ;; py_int x) = Ok 0 ->
  segment_samples (attack_duration c) (sample_rate c) = Ok 0 ->
  segment_samples (decay_duration c) (sample_rate c) = Ok 0 ->
  segment_samples (release_duration c) (sample_rate c) = Ok 0 ->
  param_truediv (to_zero c) (attack_duration c) = Ok pA ->
  fade (Some false) (transition c) (alpha c) (db_dev c) pA 0 = Ok [] ->
  loud (sustain_level c) (transition c) (alpha c) 0 = Ok [] ->
  sustain_amplitude pow10 c = Ok aS ->
  param_truediv (to_zero c) (release_duration c) = Ok pR ->
  fade None (transition c) (alpha c) (db_dev c) pR 0 = Ok [] ->
  adsr' c None = Ok [].
Proof.
  intros Hn HL Ha Hd Hr HpA Hatt Hdec HaS HpR Hrel.
  assert (HL' : total_length c None = Ok 0).
  { unfold total_length. rewrite Hn. exact HL. }
  rewrite (adsr_steps _ _ _ _ _ _ _ _ _ HL' Ha Hd Hr).
  rewrite (envelope_Ok _ _ _ c 0 0 0 0 _ _ _ _ _ _
             HpA Hatt Hdec HaS (Z.le_refl 0) HpR Hrel).
  reflexivity.
Qed.

(** With the default segment durations the same zero-length request
    raises, whatever the generators do. *)
Lemma adsr_zero_duration_default_raises :
  total_length Examples.cfg_zero_duration None = Ok 0 /\
  raises (adsr' Examples.cfg_zero_duration None).
Proof.
  split; [reflexivity |].
  apply adsr_negative_remainder with (L := 0) (a := 882) (d := 882)
    (r := 2205); reflexivity.
Qed.

(** C7: with lists of per-segment values for [alpha], [db_dev] and
    [to_zero], as the docstring allows, [adsr] raises [TypeError] at
    line 103 before any segment is built. *)
Theorem adsr_per_segment_lists_raise :
  adsr' Examples.cfg_per_segment None = Raise TypeError.
Proof.
  reflexivity.
Qed.

(** An ndarray [to_zero] is divided whole: both of its entries reach the
    attack call, and both reach the release call. *)
Lemma param_truediv_ndarray_whole (tA tR : float) (d : pynum) (fd : float) :
  as_float d = Ok fd ->
  param_truediv (NdArray [tA; tR]) d
  = Ok (NdArray [(tA / fd)%float; (tR / fd)%float]).
Proof.
  intros H. unfold param_truediv. rewrite H. reflexivity.
Qed.

Lemma segment_samples_zero_rate (z : Z) :
  segment_samples (PyInt z) (PyInt 0) = Ok 0.
Proof.
  unfold segment_samples. cbn [py_mul bind]. rewrite Z.mul_0_r.
  reflexivity.
Qed.

(** C8 (as amended): [adsr] does not validate the sample rate or the
    durations.  When a signal or a nonzero [number_of_samples] fixes the
    length, [envelope_duration] is not read: a negative value is
    accepted and the call does what it does for any other value.  With
    [sample_rate=0], integer segment durations and a positive
    [number_of_samples], every segment count is 0 and the call returns
    [number_of_samples] copies of the sustain amplitude (the
    zero-approach fractions being defined and the generators returning
    empty sequences for 0 samples).  In general a call with no signal
    returns the assembled envelope whenever the arithmetic of lines
    93-111 is defined, the generators return and the sustain count is not
    negative, whatever the signs of the sample rate and of the
    durations. *)
Theorem adsr_no_validation c :
  (forall sv ed,
     sv <> None \/ number_of_samples c <> 0 ->
     adsr' (with_envelope_duration c ed) sv = adsr' c sv)
  /\ (forall ad dd rd pA pR aS,
        sample_rate c = PyInt 0 ->
        attack_duration c = PyInt ad ->
        decay_duration c = PyInt dd ->
        release_duration c = PyInt rd ->
        0 < number_of_samples c ->
        param_truediv (to_zero c) (attack_duration c) = Ok pA ->
        fade (Some false) (transition c) (alpha c) (db_dev c) pA 0 = Ok [] ->
        loud (sustain_level c) (transition c) (alpha c) 0 = Ok [] ->
        sustain_amplitude pow10 c = Ok aS ->
        param_truediv (to_zero c) (release_duration c) = Ok pR ->
        fade None (transition c) (alpha c) (db_dev c) pR 0 = Ok [] ->
        adsr' c None = Ok (repeat aS (Z.to_nat (number_of_samples c))))
  /\ (forall L a d r pA pR att dec aS rel,
        total_length c None = Ok L ->
        segment_samples (attack_duration c) (sample_rate c) = Ok a ->
        segment_samples (decay_duration c) (sample_rate c) = Ok d ->
        segment_samples (release_duration c) (sample_rate c) = Ok r ->
        param_truediv (to_zero c) (attack_duration c) = Ok pA ->
        fade (Some false) (transition c) (alpha c) (db_dev c) pA a = Ok att ->
        loud (sustain_level c) (transition c) (alpha c) d = Ok dec ->
        sustain_amplitude pow10 c = Ok aS ->
        0 <= L - (a + r + d) ->
        param_truediv (to_zero c) (release_duration c) = Ok pR ->
        fade None (transition c) (alpha c) (db_dev c) pR r = Ok rel ->
        adsr' c None
        = Ok (assembled att dec aS (Z.to_nat (L - (a + r + d))) rel)).
Proof.
  split; [| split].
  - intros sv ed Hsrc.
    assert (HL : total_length (with_envelope_duration c ed) sv
                 = total_length c sv).
    { unfold total_length. destruct sv as [s |]; [reflexivity |]. simpl.
      destruct Hsrc as [Hsv | Hn]; [congruence |].
      destruct (Z.eqb_spec (number_of_samples c) 0); [contradiction |].
      reflexivity. }
    unfold adsr. rewrite HL. reflexivity.
  - intros ad dd rd pA pR aS Hsr Had Hdd Hrd Hn HpA Hatt Hdec HaS HpR Hrel.
    assert (HL : total_length c None = Ok (number_of_samples c)).
    { unfold total_length.
      destruct (Z.eqb_spec (number_of_samples c) 0); [lia | reflexivity]. }
    assert (Ha : segment_samples (attack_duration c) (sample_rate c) = Ok 0).
    { rewrite Hsr, Had. apply segment_samples_zero_rate. }
    assert (Hd : segment_samples (decay_duration c) (sample_rate c) = Ok 0).
    { rewrite Hsr, Hdd. apply segment_samples_zero_rate. }
    assert (Hr : segment_samples (release_duration c) (sample_rate c) = Ok 0).
    { rewrite Hsr, Hrd. apply segment_samples_zero_rate. }
    assert (Hk : 0 <= number_of_samples c - (0 + 0 + 0)) by lia.
    rewrite (adsr_steps _ _ _ _ _ _ _ _ _ HL Ha Hd Hr).
    rewrite (envelope_Ok _ _ _ c _ 0 0 0 _ _ _ _ _ _
               HpA Hatt Hdec HaS Hk HpR Hrel).
    simpl. unfold assembled. simpl. rewrite app_nil_r.
    replace (number_of_samples c - 0) with (number_of_samples c) by lia.
    reflexivity.
  - intros L a d r pA pR att dec aS rel
      HL Ha Hd Hr HpA Hatt Hdec HaS Hk HpR Hrel.
    rewrite (adsr_steps _ _ _ _ _ _ _ _ _ HL Ha Hd Hr).
    rewrite (envelope_Ok _ _ _ c L a d r _ _ _ _ _ _
               HpA Hatt Hdec HaS Hk HpR Hrel).
    reflexivity.
Qed.

(** A zero divisor makes the true division of two numbers raise
    [ZeroDivisionError]. *)
Lemma py_truediv_zero (x d : pynum) (fx : float) :
  as_float x = Ok fx ->
  num_is_zero d = true ->
  py_truediv x d = Raise ZeroDivisionError.
Proof.
  intros Hx Hd.
  destruct x as [a | fa], d as [z | f]; simpl in Hd.
  - apply Z.eqb_eq in Hd. subst z. reflexivity.
  - unfold py_truediv. rewrite Hx. simpl. rewrite Hd. reflexivity.
  - apply Z.eqb_eq in Hd. subst z. reflexivity.
  - unfold py_truediv. simpl. rewrite Hd. reflexivity.
Qed.

Lemma py_truediv_zero_raises (x d : pynum) :
  num_is_zero d = true -> raises (py_truediv x d).
Proof.
  intros Hd.
  destruct (as_float x) as [fx | e] eqn:Hx.
  - exists ZeroDivisionError. apply (py_truediv_zero _ _ _ Hx Hd).
  - destruct x as [a | fa]; [| discriminate].
    destruct d as [z | f]; simpl in Hd.
    + apply Z.eqb_eq in Hd. subst z. exists ZeroDivisionError. reflexivity.
    + exists e. unfold py_truediv. rewrite Hx. reflexivity.
Qed.

Lemma param_truediv_zero_raises (p : pyparam) (d : pynum) :
  is_ndarray p = false -> num_is_zero d = true ->
  raises (param_truediv p d).
Proof.
  intros Hp Hd. destruct p as [x | l | a]; simpl in Hp.
  - unfold param_truediv. apply bind_raises_l, py_truediv_zero_raises, Hd.
  - exists TypeError. reflexivity.
  - discriminate.
Qed.

Lemma envelope_zero_duration_raises c L a d r :
  is_ndarray (to_zero c) = false ->
  num_is_zero (attack_duration c) = true
  \/ num_is_zero (release_duration c) = true ->
  raises (envelope' c L a d r).
Proof.
  intros Hp [Hz | Hz]; unfold envelope.
  - apply bind_raises_l, param_truediv_zero_raises; assumption.
  - apply bind_raises_r; intros pA _.
    apply bind_raises_r; intros att _.
    apply bind_raises_r; intros dec _.
    apply bind_raises_r; intros aS _.
    apply bind_raises_r; intros ones _.
    apply bind_raises_l, param_truediv_zero_raises; assumption.
Qed.

(** C10 (as amended): when [to_zero] is a Python number (as by default)
    or a list, every call with [attack_duration] or [release_duration]
    equal to zero fails with an error: the zero-approach fraction
    [to_zero / attack_duration] (respectively [to_zero /
    release_duration]) raises, with [ZeroDivisionError] for a number
    [to_zero] that converts to a float. *)
Theorem adsr_zero_duration_raises c sv :
  is_ndarray (to_zero c) = false ->
  num_is_zero (attack_duration c) = true
  \/ num_is_zero (release_duration c) = true ->
  raises (adsr' c sv)
  /\ (num_is_zero (attack_duration c) = true ->
      raises (param_truediv (to_zero c) (attack_duration c)))
  /\ (num_is_zero (release_duration c) = true ->
      raises (param_truediv (to_zero c) (release_duration c)))
  /\ (forall x fx dur,
        as_float x = Ok fx -> num_is_zero dur = true ->
        param_truediv (Scalar x) dur = Raise ZeroDivisionError).
Proof.
  intros Hp Hz.
  split.
  { unfold adsr.
    apply bind_raises_r; intros L _.
    apply bind_raises_r; intros a _.
    apply bind_raises_r; intros d _.
    apply bind_raises_r; intros r _.
    apply bind_raises_l, envelope_zero_duration_raises; assumption. }
  split; [intros H; apply param_truediv_zero_raises; assumption |].
  split; [intros H; apply param_truediv_zero_raises; assumption |].
  intros x fx dur Hx Hd. unfold param_truediv.
  rewrite (py_truediv_zero _ _ _ Hx Hd). reflexivity.
Qed.

End AdsrErrors.

(** * Concrete runs *)

Module Runs.

Import Examples.

Lemma linspace_length (a b : float) (n : nat) : length (linspace a b n) = n.
Proof.
  destruct n as [| [| m]]; try reflexivity.
  unfold linspace. rewrite length_app, length_map, length_seq. simpl. lia.
Qed.

Lemma lin_fade_contract : fade_contract lin_fade.
Proof.
  intros fade_out method al dB perc n l. unfold lin_fade.
  destruct (negb (method =? "linear")%string); [discriminate |].
  destruct (Z.ltb_spec n 0) as [Hn | Hn]; [discriminate |].
  intros H. injection H as <-.
  destruct fade_out as [[|] |]; rewrite linspace_length; lia.
Qed.

Lemma lin_loud_contract (pow10 : float -> result float) :
  loud_contract (lin_loud pow10).
Proof.
  intros dev method al n l. unfold lin_loud.
  destruct (negb (method =? "linear")%string); [discriminate |].
  destruct (Z.ltb_spec n 0) as [Hn | Hn]; [discriminate |].
  intros H.
  apply bind_Ok_inv in H. destruct H as (x & _ & H).
  apply bind_Ok_inv in H. destruct H as (a & _ & H).
  injection H as <-. rewrite linspace_length. lia.
Qed.

(** The linear envelope of [cfg_lin]: 2 + 2 + 91 + 5 samples. *)
Lemma adsr_valid_concat_witness :
  2 + 2 + 5 <= 100
  /\ Z.of_nat (length (assembled (linspace 0 1 2) (linspace 1 (1 / 10) 2)
                         (1 / 10) 91 (linspace 1 0 5))) = 100
  /\ lin_adsr cfg_lin None
     = Ok (assembled (linspace 0 1 2) (linspace 1 (1 / 10) 2)
             (1 / 10) 91 (linspace 1 0 5)).
Proof.
  split; [lia |].
  apply (adsr_valid_concat lin_fade (lin_loud pow10_int) pow10_int
           cfg_lin None 100 2 2 5
           (Scalar (PyFloat (1 / 20))) (Scalar (PyFloat (1 / 50)))
           (linspace 0 1 2) (linspace 1 (1 / 10) 2) (1 / 10)%float
           (linspace 1 0 5));
    try reflexivity; lia.
Defined.

(** C1 as stated fails: with [attack_duration=0] and the other arguments
    at their defaults the segment counts 0, 882 and 2205 sum to less than
    the total length 88200, and the call raises at line 103. *)
Lemma adsr_zero_attack_valid_raises :
  total_length cfg_zero_attack None = Ok 88200
  /\ segment_samples (attack_duration cfg_zero_attack)
       (sample_rate cfg_zero_attack) = Ok 0
  /\ segment_samples (decay_duration cfg_zero_attack)
       (sample_rate cfg_zero_attack) = Ok 882
  /\ segment_samples (release_duration cfg_zero_attack)
       (sample_rate cfg_zero_attack) = Ok 2205
  /\ 0 + 882 + 2205 <= 88200
  /\ lin_adsr cfg_zero_attack None = Raise ZeroDivisionError.
Proof.
  repeat split; try reflexivity. lia.
Qed.

(** The overlong example, with the linear generators. *)
Lemma adsr_negative_sustain_raises_witness :
  44100 < 132300 + 132300 + 132300
  /\ raises (lin_adsr cfg_overlong None)
  /\ lin_adsr cfg_overlong None <> Ok [].
Proof.
  split; [lia |].
  destruct (adsr_negative_sustain_raises lin_fade (lin_loud pow10_int)
              pow10_int cfg_overlong None 44100 132300 132300 132300)
    as (H1 & H2 & _); try reflexivity.
  split; [exact H1 | apply H2].
Defined.

(** The linear envelope applied to twelve samples: sample 3 is
    [4.0 * 0.1]. *)
Lemma adsr_signal_is_product_witness :
  sig_left <> []
  /\ length (value_or [] (lin_adsr (with_number_of_samples cfg_lin 12) None))
     = 12%nat
  /\ lin_adsr cfg_lin (Some sig_left)
     = Ok (map (fun p => (fst p * snd p)%float)
             (combine sig_left
                (value_or []
                   (lin_adsr (with_number_of_samples cfg_lin 12) None))))
  /\ nth_error (value_or [] (lin_adsr cfg_lin (Some sig_left))) 3
     = Some (4 * (1 / 10))%float.
Proof.
  assert (Hs : sig_left <> []) by discriminate.
  split; [exact Hs |].
  destruct (adsr_signal_is_product lin_fade (lin_loud pow10_int) pow10_int
              cfg_lin sig_left Hs) as [_ H].
  destruct (H lin_fade_contract (lin_loud_contract pow10_int)
              (value_or [] (lin_adsr (with_number_of_samples cfg_lin 12) None))
              eq_refl) as (Hlen & Hout & _ & Hnth).
  split; [exact Hlen |]. split; [exact Hout |].
  unfold lin_adsr. rewrite Hout. simpl value_or.
  apply Hnth; reflexivity.
Defined.

(** C3 as stated fails: on the three samples of a signal shorter than
    the attack, decay and release of [cfg_lin] together (2 + 2 + 5),
    [adsr] returns no buffer, with the signal or for its length. *)
Lemma adsr_short_signal_raises :
  firstn 3 sig_left <> []
  /\ lin_adsr cfg_lin (Some (firstn 3 sig_left)) = Raise ValueError
  /\ lin_adsr (with_number_of_samples cfg_lin 3) None = Raise ValueError.
Proof.
  repeat split; try reflexivity. discriminate.
Qed.

(** C4 as stated fails: 7 ms at 44100 Hz are 308.7 samples, which [adsr]
    truncates to 308 and rounding takes to 309. *)
Lemma segment_samples_not_rounded :
  segment_samples (PyInt 7) (PyInt 44100) = Ok 308
  /\ spec_segment_samples 7 44100 = 309.
Proof.
  split; reflexivity.
Qed.

Lemma adsr_lengths_truncate_witness :
  total_length cfg_negative_duration None = Ok 12
  /\ total_length cfg_lin None
     = (x <- py_mul (PyInt 1) (PyInt 100) ;; py_int x).
Proof.
  destruct (adsr_lengths_truncate cfg_negative_duration)
    as (_ & H1 & _).
  destruct (adsr_lengths_truncate cfg_lin) as (_ & _ & H2 & _).
  split; [apply H1; discriminate | apply H2; reflexivity].
Defined.

(** The stereo envelope of two signals of twelve samples. *)
Lemma adsr_stereo_rows_witness :
  length sig_left = length sig_right
  /\ lin_adsr_stereo cfg_lin (Some [sig_left; sig_right])
     = (r0 <- lin_adsr cfg_lin (Some sig_left) ;;
        r1 <- lin_adsr cfg_lin (Some sig_right) ;;
        Ok [r0; r1]).
Proof.
  split; [reflexivity |].
  destruct (adsr_stereo_rows lin_fade (lin_loud pow10_int) pow10_int cfg_lin)
    as [H _].
  apply H. reflexivity.
Defined.

(** C6 as stated fails: the zero-length request of [cfg_zero_length]
    ([number_of_samples=0], no signal, [envelope_duration=0]) asks for
    2 + 2 + 5 segment samples out of 0 and raises. *)
Lemma adsr_zero_length_request_raises :
  number_of_samples cfg_zero_length = 0
  /\ total_length cfg_zero_length None = Ok 0
  /\ lin_adsr cfg_zero_length None = Raise ValueError.
Proof.
  repeat split; reflexivity.
Qed.

Lemma adsr_zero_length_empty_witness :
  total_length cfg_all_empty None = Ok 0
  /\ lin_adsr cfg_all_empty None = Ok [].
Proof.
  split; [reflexivity |].
  apply (adsr_zero_length_empty lin_fade (lin_loud pow10_int) pow10_int
           cfg_all_empty (Scalar (PyFloat 2)) (Scalar (PyFloat 2))
           (1 / 10)%float);
    reflexivity.
Defined.

(** C8 as stated fails: a negative [envelope_duration] and a zero
    [sample_rate] are both accepted, and twelve samples come back. *)
Lemma adsr_invalid_inputs_accepted :
  envelope_duration cfg_negative_duration = PyInt (-1)
  /\ returned_length (lin_adsr cfg_negative_duration None) = Some 12%nat
  /\ sample_rate cfg_zero_rate = PyInt 0
  /\ returned_length (lin_adsr cfg_zero_rate None) = Some 12%nat.
Proof.
  repeat split; reflexivity.
Qed.

Lemma adsr_no_validation_witness :
  lin_adsr cfg_negative_duration None
  = lin_adsr (with_envelope_duration cfg_negative_duration (PyInt 1)) None
  /\ lin_adsr cfg_zero_rate None = Ok (repeat (1 / 10)%float 12).
Proof.
  split.
  - destruct (adsr_no_validation lin_fade (lin_loud pow10_int) pow10_int
                (with_envelope_duration cfg_negative_duration (PyInt 1)))
      as (H & _ & _).
    apply (H None (PyInt (-1))). right. discriminate.
  - destruct (adsr_no_validation lin_fade (lin_loud pow10_int) pow10_int
                cfg_zero_rate) as (_ & H & _).
    apply (H 20 20 50 (Scalar (PyFloat (1 / 20))) (Scalar (PyFloat (1 / 50)))
             (1 / 10)%float);
      reflexivity.
Defined.

(** The release of [cfg_lin]: sustained 20 dB below full scale, that is
    at [10 ** -1.0], it is the five samples of the fade-out from 1 to 0
    times 0.1, and starts, at index 95, at 0.1. *)
Lemma adsr_release_scaled_by_sustain_witness :
  py_truediv (sustain_level cfg_lin) (PyFloat 20%float) = Ok (-1)%float
  /\ pow10_int (-1)%float = Ok (1 / 10)%float
  /\ skipn 95 (value_or [] (lin_adsr cfg_lin None))
     = map (fun v => (v * (1 / 10))%float) (linspace 1 0 5)
  /\ nth_error (value_or [] (lin_adsr cfg_lin None)) 95
     = Some (1 / 10)%float.
Proof.
  destruct (adsr_release_scaled_by_sustain lin_fade (lin_loud pow10_int)
              pow10_int cfg_lin None
              (value_or [] (lin_adsr cfg_lin None)) eq_refl)
    as (L & a & d & r & pR & x & aS & att & dec & curve
        & HL & Ha & Hd & Hr & Hx & Hpow & HpR & Hcurve & HAD & Hout
        & _ & Hskip).
  specialize (Hskip eq_refl lin_fade_contract (lin_loud_contract pow10_int)).
  assert (EL : total_length cfg_lin None = Ok 100) by reflexivity.
  rewrite EL in HL. injection HL as <-.
  assert (Er : segment_samples (release_duration cfg_lin)
                 (sample_rate cfg_lin) = Ok 5) by reflexivity.
  rewrite Er in Hr. injection Hr as <-.
  assert (Ex : py_truediv (sustain_level cfg_lin) (PyFloat 20%float)
               = Ok (-1)%float) by reflexivity.
  rewrite Ex in Hx. injection Hx as <-.
  assert (Ep : pow10_int (-1)%float = Ok (1 / 10)%float) by reflexivity.
  rewrite Ep in Hpow. injection Hpow as <-.
  assert (EpR : param_truediv (to_zero cfg_lin) (release_duration cfg_lin)
                = Ok (Scalar (PyFloat (1 / 50)))) by reflexivity.
  rewrite EpR in HpR. injection HpR as <-.
  change (@Ok (list float) (linspace 1 0 5) = Ok curve) in Hcurve.
  injection Hcurve as <-.
  split; [exact Ex |]. split; [exact Ep |].
  split; [exact Hskip |].
  rewrite <- (Nat.add_0_r 95), <- nth_error_skipn.
  change (skipn 95 (value_or [] (lin_adsr cfg_lin None)))
    with (skipn (Z.to_nat (100 - 5)) (value_or [] (lin_adsr cfg_lin None))).
  rewrite Hskip. reflexivity.
Defined.

(** C10 as stated fails: with an ndarray [to_zero] the division by
    [attack_duration=0] gives infinities, nothing is raised, and the call
    returns its hundred samples. *)
Lemma adsr_zero_attack_ndarray_returns :
  attack_duration cfg_nd_zero_attack = PyInt 0
  /\ param_truediv (to_zero cfg_nd_zero_attack)
       (attack_duration cfg_nd_zero_attack)
     = Ok (NdArray [infinity; infinity])
  /\ returned_length (lin_adsr cfg_nd_zero_attack None) = Some 100%nat.
Proof.
  repeat split; reflexivity.
Qed.

Lemma adsr_zero_duration_raises_witness :
  num_is_zero (attack_duration cfg_lin_zero_attack) = true
  /\ raises (lin_adsr cfg_lin_zero_attack None)
  /\ param_truediv (to_zero cfg_lin_zero_attack)
       (attack_duration cfg_lin_zero_attack)
     = Raise ZeroDivisionError.
Proof.
  split; [reflexivity |].
  destruct (adsr_zero_duration_raises lin_fade (lin_loud pow10_int)
              pow10_int cfg_lin_zero_attack None eq_refl
              (or_introl eq_refl)) as (H1 & _ & _ & H2).
  split; [exact H1 |].
  apply (H2 (PyInt 1) 1%float (PyInt 0)); reflexivity.
Defined.

End Runs.

(** * Further properties *)

(** ** Binary64 addition and subtraction *)

Lemma SF64add_comm (x y : spec_float) : SF64add x y = SF64add y x.
Proof.
  destruct x as [sx | sx | | sx mx ex], y as [sy | sy | | sy my ey];
    try reflexivity;
    try (destruct sx, sy; reflexivity).
  unfold SF64add, SFadd. rewrite (Z.min_comm ey ex). f_equal.
  apply Z.add_comm.
Qed.

Lemma float_add_comm (x y : float) : (x + y)%float = (y + x)%float.
Proof.
  apply Prim2SF_inj. rewrite !add_spec. apply SF64add_comm.
Qed.

(** [(0.0 + a) + b] and [(0.0 + b) + a] are the same float, the signed
    zeros included. *)
Lemma float_zero_add_swap (a b : float) :
  ((0 + a) + b)%float = ((0 + b) + a)%float.
Proof.
  apply Prim2SF_inj. rewrite !add_spec.
  change (Prim2SF 0%float) with (S754_zero false).
  destruct (Prim2SF a) as [sa | sa | | sa ma ea],
           (Prim2SF b) as [sb | sb | | sb mb eb];
    try reflexivity;
    try (destruct sa; reflexivity);
    try (destruct sb; reflexivity);
    try (destruct sa, sb; reflexivity).
  change (SF64add (S754_zero false) (S754_finite sa ma ea))
    with (S754_finite sa ma ea).
  change (SF64add (S754_zero false) (S754_finite sb mb eb))
    with (S754_finite sb mb eb).
  apply SF64add_comm.
Qed.

(** [x - x] is [0.0] for a finite [x] and nan otherwise. *)
Lemma float_sub_diag (x : float) :
  Prim2SF (x - x)%float
  = if Utils.finite x then S754_zero false else S754_nan.
Proof.
  rewrite sub_spec. unfold Utils.finite.
  destruct (Prim2SF x) as [s | s | | s m e]; try (destruct s; reflexivity).
  - reflexivity.
  - unfold SF64sub, SFsub. rewrite Z.sub_diag. reflexivity.
Qed.

(** ** More on the Envelope Assembler *)

Section AdsrMore.

Variable fade : fade_fn.
Variable loud : loud_fn.
Variable pow10 : float -> result float.

(** When a signal is given, [adsr] reads neither [number_of_samples]
    nor [envelope_duration]: whatever their values, the call does the
    same. *)
Lemma adsr_signal_ignores_length_arguments c ed n s :
  adsr fade loud pow10
    (with_number_of_samples (with_envelope_duration c ed) n) (Some s)
  = adsr fade loud pow10 c (Some s).
Proof.
  reflexivity.
Qed.

(** With a signal and generators that keep their contract, the result
    has the signal's length. *)
Lemma adsr_signal_length c s out :
  fade_contract fade -> loud_contract loud ->
  adsr fade loud pow10 c (Some s) = Ok out ->
  length out = length s.
Proof.
  intros Hf Hl H.
  apply adsr_signal_Ok_inv in H.
  destruct H as (a & d & r & AD & _ & _ & _ & HAD & Hmul).
  apply (envelope_length _ _ _ _ _ _ _ _ _ Hf Hl) in HAD.
  assert (E : length s = length AD) by lia.
  rewrite (mul_same_length _ _ E) in Hmul. injection Hmul as <-.
  apply zip_mul_length, E.
Qed.

(** X1: in an envelope [adsr] returns (the generators returning as many
    samples as asked for), every sample from index
    [Lambda_A + Lambda_D] up to [Lambda - Lambda_R] is the amplitude
    [db2Amp(sustain_level)] of [music.utils]. *)
Theorem adsr_sustain_plateau c out L a d r aS :
  fade_contract fade -> loud_contract loud ->
  adsr fade loud pow10 c None = Ok out ->
  total_length c None = Ok L ->
  segment_samples (attack_duration c) (sample_rate c) = Ok a ->
  segment_samples (decay_duration c) (sample_rate c) = Ok d ->
  segment_samples (release_duration c) (sample_rate c) = Ok r ->
  Utils.db2Amp pow10 (sustain_level c) = Ok aS ->
  forall i, a + d <= i < L - r -> nth_error out (Z.to_nat i) = Some aS.
Proof.
  intros Hf Hl H HL Ha Hd Hr HaS i Hi.
  apply adsr_Ok_inv in H.
  destruct H as (L' & a' & d' & r' & AD & HL' & Ha' & Hd' & Hr' & HAD & Hout).
  rewrite HL in HL'. injection HL' as <-.
  rewrite Ha in Ha'. injection Ha' as <-.
  rewrite Hd in Hd'. injection Hd' as <-.
  rewrite Hr in Hr'. injection Hr' as <-.
  injection Hout as <-.
  apply envelope_Ok_inv in HAD.
  destruct HAD as (pA & att & dec & aS' & pR & rel
                   & _ & Hatt & Hdec & HaS' & Hk & _ & Hrel & ->).
  change (sustain_amplitude pow10 c)
    with (Utils.db2Amp pow10 (sustain_level c)) in HaS'.
  rewrite HaS in HaS'. injection HaS' as <-.
  apply Hf in Hatt, Hrel. apply Hl in Hdec.
  unfold assembled.
  rewrite nth_error_app2 by lia.
  rewrite nth_error_app2 by lia.
  rewrite nth_error_app1 by (rewrite repeat_length; lia).
  apply nth_error_repeat. lia.
Qed.

(** X2: an envelope [adsr] returns (the generators returning as many
    samples as asked for) starts with the [Lambda_A] samples that [fade]
    returned for the attack, unscaled, followed by the [Lambda_D]
    samples that [loud] returned for the decay. *)
Theorem adsr_attack_then_decay c out a d :
  fade_contract fade -> loud_contract loud ->
  adsr fade loud pow10 c None = Ok out ->
  segment_samples (attack_duration c) (sample_rate c) = Ok a ->
  segment_samples (decay_duration c) (sample_rate c) = Ok d ->
  exists perc,
    param_truediv (to_zero c) (attack_duration c) = Ok perc
    /\ fade (Some false) (transition c) (alpha c) (db_dev c) perc a
       = Ok (firstn (Z.to_nat a) out)
    /\ loud (sustain_level c) (transition c) (alpha c) d
       = Ok (firstn (Z.to_nat d) (skipn (Z.to_nat a) out)).
Proof.
  intros Hf Hl H Ha Hd.
  apply adsr_Ok_inv in H.
  destruct H as (L' & a' & d' & r' & AD & HL' & Ha' & Hd' & Hr' & HAD & Hout).
  rewrite Ha in Ha'. injection Ha' as <-.
  rewrite Hd in Hd'. injection Hd' as <-.
  injection Hout as <-.
  apply envelope_Ok_inv in HAD.
  destruct HAD as (pA & att & dec & aS' & pR & rel
                   & HpA & Hatt & Hdec & _ & _ & _ & _ & ->).
  exists pA. split; [exact HpA |].
  pose proof (Hf _ _ _ _ _ _ _ Hatt) as La.
  pose proof (Hl _ _ _ _ _ Hdec) as Ld.
  unfold assembled.
  replace (Z.to_nat a) with (length att) by lia.
  replace (Z.to_nat d) with (length dec) by lia.
  rewrite firstn_app, Nat.sub_diag, firstn_all. simpl. rewrite app_nil_r.
  rewrite skipn_app, Nat.sub_diag, skipn_all. simpl.
  rewrite firstn_app, Nat.sub_diag, firstn_all. simpl. rewrite app_nil_r.
  split; assumption.
Qed.

(** X3: [adsr_stereo] on a signal with fewer than two rows raises
    [IndexError] before any envelope is computed, and rows after the
    second are not read. *)
Theorem adsr_stereo_needs_two_rows c :
  (forall rows,
     (length rows < 2)%nat ->
     adsr_stereo fade loud pow10 c (Some rows) = Raise IndexError)
  /\ (forall r0 r1 rest,
        adsr_stereo fade loud pow10 c (Some (r0 :: r1 :: rest))
        = adsr_stereo fade loud pow10 c (Some [r0; r1])).
Proof.
  split.
  - intros [| r0 [| r1 rest]] H;
      [reflexivity | reflexivity | simpl in H; lia].
  - reflexivity.
Qed.

(** X4: when the two channels differ in length and [adsr] returns for
    each (the generators returning as many samples as asked for),
    [adsr_stereo] raises the [ValueError] of [np.vstack]. *)
Theorem adsr_stereo_unequal_lengths_raise c sig1 sig2 r0 r1 :
  fade_contract fade -> loud_contract loud ->
  length sig1 <> length sig2 ->
  adsr fade loud pow10 c (Some sig1) = Ok r0 ->
  adsr fade loud pow10 c (Some sig2) = Ok r1 ->
  adsr_stereo fade loud pow10 c (Some [sig1; sig2]) = Raise ValueError.
Proof.
  intros Hf Hl Hne H0 H1.
  unfold adsr_stereo, row. simpl. rewrite H0, H1. simpl.
  apply (adsr_signal_length _ _ _ Hf Hl) in H0, H1.
  unfold Np.vstack. rewrite H0, H1.
  destruct (Nat.eqb_spec (length sig1) (length sig2)); [contradiction |].
  reflexivity.
Qed.

(** X5: whatever [adsr_stereo] returns has exactly two rows, of the same
    length. *)
Theorem adsr_stereo_shape c sv rows :
  adsr_stereo fade loud pow10 c sv = Ok rows ->
  exists r0 r1, rows = [r0; r1] /\ length r0 = length r1.
Proof.
  unfold adsr_stereo. intros H.
  apply bind_Ok_inv in H. destruct H as (ch & _ & H).
  apply bind_Ok_inv in H. destruct H as (s1 & _ & H).
  apply bind_Ok_inv in H. destruct H as (s2 & _ & H).
  unfold Np.vstack in H.
  destruct (Nat.eqb_spec (length s1) (length s2)) as [E | E];
    [| discriminate].
  injection H as <-. exists s1, s2. split; [reflexivity | exact E].
Qed.

Section Vibrato.

Variable note_kwargs : Type.
Variable note_with_vibrato : note_kwargs -> result (list float).

(** X6: with a [sonic_vector] key in [adsr_dict], [adsr_vibrato] never
    returns: it raises what [note_with_vibrato] raises, and [TypeError]
    once the note is made. *)
Theorem adsr_vibrato_sonic_vector_key note_dict adsr_dict sv :
  kw_sonic_vector adsr_dict = Some sv ->
  (forall e,
     note_with_vibrato note_dict = Raise e ->
     adsr_vibrato fade loud pow10 note_kwargs note_with_vibrato
       note_dict adsr_dict = Raise e)
  /\ (forall note,
        note_with_vibrato note_dict = Ok note ->
        adsr_vibrato fade loud pow10 note_kwargs note_with_vibrato
          note_dict adsr_dict = Raise TypeError).
Proof.
  intros Hk. unfold adsr_vibrato. split.
  - intros e ->. reflexivity.
  - intros note ->. simpl. rewrite Hk. reflexivity.
Qed.

(** X7: what [adsr_vibrato] returns is [adsr] applied to the note with
    the keywords of [adsr_dict], and (the generators returning as many
    samples as asked for) it has as many samples as the note. *)
Theorem adsr_vibrato_keeps_length note_dict adsr_dict note out :
  fade_contract fade -> loud_contract loud ->
  note_with_vibrato note_dict = Ok note ->
  adsr_vibrato fade loud pow10 note_kwargs note_with_vibrato
    note_dict adsr_dict = Ok out ->
  length out = length note
  /\ adsr fade loud pow10 (bind_keywords adsr_dict) (Some note) = Ok out.
Proof.
  intros Hf Hl Hn H. unfold adsr_vibrato in H. rewrite Hn in H. simpl in H.
  destruct (kw_sonic_vector adsr_dict); [discriminate |].
  split; [| exact H].
  apply (adsr_signal_length _ _ _ Hf Hl H).
Qed.

End Vibrato.

End AdsrMore.

(** ** [music.utils] *)

Module UtilsFacts.

Import Utils.

Lemma zip_add_length (a b : list float) :
  length a = length b -> length (zip_add a b) = length a.
Proof.
  revert b. induction a as [| x a IH]; intros [| y b] H; simpl in *;
    try reflexivity; try discriminate.
  f_equal. apply IH. congruence.
Qed.

Lemma zip_add_zeros (x : list float) :
  zip_add (repeat 0%float (length x)) x = map (fun v => (0 + v)%float) x.
Proof.
  induction x as [| v x IH]; simpl; [reflexivity | now rewrite IH].
Qed.

Lemma iadd_same_length (a b : list float) :
  length a = length b -> iadd a b = Ok (zip_add a b).
Proof.
  intros H. unfold iadd. rewrite H, Nat.eqb_refl. reflexivity.
Qed.

Lemma zip_add_zero_swap (a b : list float) :
  length a = length b ->
  zip_add (map (fun v => (0 + v)%float) a) b
  = zip_add (map (fun v => (0 + v)%float) b) a.
Proof.
  revert b. induction a as [| x a IH]; intros [| y b] H; simpl in *;
    try reflexivity; try discriminate.
  rewrite float_zero_add_swap. f_equal. apply IH. congruence.
Qed.

(** The longer signal first. *)
Lemma mix_long_short {Self : Type} (self : Self) (long short : list float) :
  (length short <= length long)%nat ->
  mix self long short
  = Ok (zip_add (map (fun v => (0 + v)%float) (firstn (length short) long))
          short
        ++ map (fun v => (0 + v)%float) (skipn (length short) long)).
Proof.
  intros Hle. unfold mix.
  destruct (Nat.ltb_spec (length long) (length short)) as [Hlt | _]; [lia |].
  rewrite iadd_same_length by apply repeat_length.
  rewrite zip_add_zeros. simpl.
  rewrite iadd_same_length by (rewrite length_firstn, length_map; lia).
  simpl. rewrite firstn_map, skipn_map. reflexivity.
Qed.

Lemma mix_short_long {Self : Type} (self : Self) (long short : list float) :
  (length short <= length long)%nat ->
  mix self short long = mix self long short.
Proof.
  intros Hle. rewrite (mix_long_short self long short Hle).
  unfold mix.
  destruct (Nat.ltb_spec (length short) (length long)) as [Hlt | Hge].
  - rewrite iadd_same_length by apply repeat_length.
    rewrite zip_add_zeros. simpl.
    rewrite iadd_same_length by (rewrite length_firstn, length_map; lia).
    simpl. rewrite firstn_map, skipn_map. reflexivity.
  - assert (Heq : length short = length long) by lia.
    rewrite iadd_same_length by apply repeat_length.
    rewrite zip_add_zeros. simpl.
    rewrite iadd_same_length by (rewrite length_firstn, length_map; lia).
    simpl.
    rewrite !firstn_all2 by (rewrite ?length_map; lia).
    rewrite !skipn_all2 by (rewrite ?length_map; lia).
    simpl. rewrite !app_nil_r. f_equal. apply zip_add_zero_swap. exact Heq.
Qed.

(** X9: [mix] does not depend on the order of its two signals: both
    orders give the same length and the same value at every index, the
    sign of a zero included; where one holds a nan so does the other
    (binary64 values are taken with a single nan: which nan the
    hardware leaves, its sign and payload, is not modelled). *)
Theorem mix_comm {Self : Type} (self : Self) (a b : list float) :
  mix self a b = mix self b a.
Proof.
  destruct (Nat.le_ge_cases (length a) (length b)) as [H | H].
  - apply mix_short_long, H.
  - symmetry. apply mix_short_long, H.
Qed.

(** X10: [mix] never raises, and its result is as long as the longer
    of the two signals. *)
Theorem mix_length {Self : Type} (self : Self) (a b : list float) :
  exists out,
    mix self a b = Ok out
    /\ length out = Nat.max (length a) (length b).
Proof.
  destruct (Nat.le_ge_cases (length a) (length b)) as [H | H].
  - rewrite (mix_short_long self b a H), (mix_long_short self b a H).
    eexists. split; [reflexivity |].
    rewrite length_app, zip_add_length, !length_map, length_firstn, length_skipn
      by (rewrite length_map, length_firstn; lia).
    lia.
  - rewrite (mix_long_short self a b H).
    eexists. split; [reflexivity |].
    rewrite length_app, zip_add_length, !length_map, length_firstn, length_skipn
      by (rewrite length_map, length_firstn; lia).
    lia.
Qed.

(** *** mixS *)

Lemma add2_comm (a b : array2) : add2 a b = add2 b a.
Proof.
  revert b. induction a as [| [x0 x1] a IH]; intros [| [y0 y1] b]; simpl;
    try reflexivity.
  rewrite (float_add_comm x0 y0), (float_add_comm x1 y1), IH. reflexivity.
Qed.

Lemma add2_length (a b : array2) :
  length a = length b -> length (add2 a b) = length a.
Proof.
  revert b. induction a as [| [x0 x1] a IH]; intros [| [y0 y1] b] H;
    simpl in *; try reflexivity; try discriminate.
  f_equal. apply IH. congruence.
Qed.

Lemma add2_app (a a' b b' : array2) :
  length a = length b ->
  add2 (a ++ a') (b ++ b') = add2 a b ++ add2 a' b'.
Proof.
  revert b. induction a as [| [x0 x1] a IH]; intros [| [y0 y1] b] H;
    simpl in *; try reflexivity; try discriminate.
  f_equal. apply IH. congruence.
Qed.

Lemma add2_rev (a b : array2) :
  length a = length b -> add2 (rev a) (rev b) = rev (add2 a b).
Proof.
  revert b. induction a as [| [x0 x1] a IH]; intros [| [y0 y1] b] H;
    simpl in *; try reflexivity; try discriminate.
  rewrite add2_app by (rewrite !length_rev; congruence).
  rewrite IH by congruence. reflexivity.
Qed.

Lemma zeros2_length (k : nat) : length (zeros2 k) = k.
Proof. apply repeat_length. Qed.

Lemma zeros2_rev (k : nat) : rev (zeros2 k) = zeros2 k.
Proof.
  unfold zeros2. induction k as [| k IH]; [reflexivity |].
  simpl. rewrite IH. symmetry. apply repeat_cons.
Qed.

Lemma two_rows_Stereo (l : sound) :
  two_sample_mono l = false ->
  exists a, two_rows l = Stereo a /\ length a = width l.
Proof.
  destruct l as [s | a]; simpl; intros H.
  - rewrite H. simpl. eexists. split; [reflexivity |]. apply length_map.
  - exists a. split; reflexivity.
Qed.

Lemma two_rows_Mono (l : sound) :
  two_sample_mono l = true -> exists s, two_rows l = Mono s.
Proof.
  destruct l as [s | a]; simpl; intros H; [| discriminate].
  rewrite H. simpl. exists s. reflexivity.
Qed.

(** X11: [mixS] raises [TypeError] as soon as one of its sounds is a
    one-dimensional sequence of exactly two samples, which [len(l) != 2]
    takes for a two-row array. *)
Theorem mixS_two_sample_mono_raises (l1 l2 : sound) (end_ : bool) :
  two_sample_mono l1 = true \/ two_sample_mono l2 = true ->
  mixS l1 l2 end_ = Raise TypeError.
Proof.
  intros [H | H]; apply two_rows_Mono in H; destruct H as [s Hs];
    unfold mixS; rewrite Hs.
  - reflexivity.
  - destruct (two_rows l1); reflexivity.
Qed.

(** X12: on any other pair of sounds [mixS] returns a two-row array
    with as many columns as the wider of the two. *)
Theorem mixS_shape (l1 l2 : sound) (end_ : bool) :
  two_sample_mono l1 = false -> two_sample_mono l2 = false ->
  exists out,
    mixS l1 l2 end_ = Ok out
    /\ length out = Nat.max (width l1) (width l2).
Proof.
  intros H1 H2.
  apply two_rows_Stereo in H1, H2.
  destruct H1 as (a1 & E1 & W1), H2 as (a2 & E2 & W2).
  unfold mixS. rewrite E1, E2, <- W1, <- W2.
  destruct (Nat.ltb_spec (length a2) (length a1)) as [Hlt | Hge];
    eexists; (split; [reflexivity |]);
    destruct end_; simpl;
    rewrite add2_length; rewrite ?length_app, ?zeros2_length; lia.
Qed.

(** X13: [mixS] does not depend on the order of its two sounds. *)
Theorem mixS_comm (l1 l2 : sound) (end_ : bool) :
  mixS l1 l2 end_ = mixS l2 l1 end_.
Proof.
  unfold mixS.
  destruct (two_rows l1) as [s1 | a1], (two_rows l2) as [s2 | a2];
    try reflexivity.
  destruct (Nat.ltb_spec (length a2) (length a1)) as [H21 | H21],
           (Nat.ltb_spec (length a1) (length a2)) as [H12 | H12];
    try lia.
  - rewrite add2_comm. reflexivity.
  - rewrite add2_comm. reflexivity.
  - assert (E : length a1 = length a2) by lia.
    rewrite E, Nat.sub_diag. simpl.
    destruct end_; simpl; rewrite ?app_nil_r; f_equal; apply add2_comm.
Qed.

Lemma two_rows_reversed (l : sound) :
  two_rows (reversed l) = reversed (two_rows l).
Proof.
  destruct l as [s | a]; simpl; [| reflexivity].
  rewrite length_rev.
  destruct (length s =? 2)%nat; simpl; [reflexivity |].
  rewrite map_rev. reflexivity.
Qed.

(** X14: [mixS] with [end=True] aligns the two sounds at their ends: it
    is [mixS] with [end=False] on the sounds played backwards, played
    backwards again. *)
Theorem mixS_end_reversed (l1 l2 : sound) :
  mixS l1 l2 true
  = (out <- mixS (reversed l1) (reversed l2) false ;; Ok (rev out)).
Proof.
  unfold mixS. rewrite !two_rows_reversed.
  destruct (two_rows l1) as [s1 | a1], (two_rows l2) as [s2 | a2];
    try reflexivity.
  simpl. rewrite !length_rev.
  destruct (Nat.ltb_spec (length a2) (length a1)) as [H | H]; simpl; f_equal.
  - replace (rev a2 ++ zeros2 (length a1 - length a2))
      with (rev (zeros2 (length a1 - length a2) ++ a2))
      by (rewrite rev_app_distr, zeros2_rev; reflexivity).
    rewrite add2_rev by (rewrite length_app, zeros2_length; lia).
    rewrite rev_involutive. reflexivity.
  - replace (rev a1 ++ zeros2 (length a2 - length a1))
      with (rev (zeros2 (length a2 - length a1) ++ a1))
      by (rewrite rev_app_distr, zeros2_rev; reflexivity).
    rewrite add2_rev by (rewrite length_app, zeros2_length; lia).
    rewrite rev_involutive. reflexivity.
Qed.

Lemma add2_symmetric (a b : array2) :
  Forall (fun c => fst c = snd c) a ->
  Forall (fun c => fst c = snd c) b ->
  Forall (fun c => fst c = snd c) (add2 a b).
Proof.
  intros Ha. revert b.
  induction Ha as [| [x0 x1] a Hx Ha IH]; intros b Hb; simpl.
  - constructor.
  - destruct Hb as [| [y0 y1] b Hy Hb]; constructor.
    + simpl in *. congruence.
    + apply IH, Hb.
Qed.

Lemma duplicated_symmetric (s : list float) :
  Forall (fun c : float * float => fst c = snd c) (map (fun x => (x, x)) s).
Proof.
  apply Forall_forall. intros c Hc. apply in_map_iff in Hc.
  destruct Hc as (x & <- & _). reflexivity.
Qed.

Lemma zeros2_symmetric (k : nat) :
  Forall (fun c : float * float => fst c = snd c) (zeros2 k).
Proof.
  apply Forall_forall. intros c Hc. apply repeat_spec in Hc. subst c.
  reflexivity.
Qed.

(** X15: mixing two one-dimensional sounds gives two equal rows. *)
Theorem mixS_mono_channels_equal (s1 s2 : list float) (end_ : bool)
  (out : array2) :
  mixS (Mono s1) (Mono s2) end_ = Ok out ->
  map fst out = map snd out.
Proof.
  intros H.
  assert (Hsym : Forall (fun c : float * float => fst c = snd c) out).
  { unfold mixS in H. simpl in H.
    destruct (length s1 =? 2)%nat; simpl in H; [discriminate |].
    destruct (length s2 =? 2)%nat; simpl in H; [discriminate |].
    destruct (length (map (fun x => (x, x)) s2)
              <? length (map (fun x => (x, x)) s1))%nat;
      injection H as <-; destruct end_; simpl;
      apply add2_symmetric;
      repeat first [ apply Forall_app; split
                   | apply duplicated_symmetric
                   | apply zeros2_symmetric ]. }
  clear H. induction Hsym as [| c out Hc _ IH]; simpl; [reflexivity |].
  rewrite Hc, IH. reflexivity.
Qed.

Lemma add2_zeros (a : array2) :
  add2 a (zeros2 (length a))
  = map (fun c => ((fst c + 0)%float, (snd c + 0)%float)) a.
Proof.
  induction a as [| [x0 x1] a IH]; simpl; [reflexivity |].
  f_equal. exact IH.
Qed.

Lemma mixS_alone_rows (l1 : sound) (end_ : bool) (a : array2) :
  two_rows l1 = Stereo a ->
  mixS l1 no_sound end_
  = Ok (map (fun c => ((fst c + 0)%float, (snd c + 0)%float)) a).
Proof.
  intros E. unfold mixS. rewrite E. simpl.
  destruct a as [| c a]; [destruct end_; reflexivity |].
  simpl length. rewrite Nat.sub_0_r.
  change (0 <? S (length a))%nat with true. cbv iota.
  destruct end_; simpl negb; cbv iota; rewrite ?app_nil_r;
    change (zeros2 0 ++ zeros2 (S (length a))) with (zeros2 (length (c :: a)));
    change ([] ++ zeros2 (S (length a))) with (zeros2 (length (c :: a)));
    rewrite add2_zeros; reflexivity.
Qed.

(** X16: [mixS] of one sound alone (the default [l2=[]]) returns it as a
    two-row array, [0.0] added to every sample: a one-dimensional sound
    of other than two samples in both rows, a two-row array row by
    row. *)
Theorem mixS_alone (end_ : bool) :
  (forall samples,
     length samples <> 2%nat ->
     mixS (Mono samples) no_sound end_
     = Ok (map (fun x => ((x + 0)%float, (x + 0)%float)) samples))
  /\ (forall channels,
        mixS (Stereo channels) no_sound end_
        = Ok (map (fun c => ((fst c + 0)%float, (snd c + 0)%float))
                channels)).
Proof.
  split.
  - intros samples Hlen.
    rewrite (mixS_alone_rows (Mono samples) end_
               (map (fun x => (x, x)) samples)).
    + rewrite map_map. reflexivity.
    + simpl. destruct (Nat.eqb_spec (length samples) 2); [contradiction |].
      reflexivity.
  - intros channels. apply mixS_alone_rows. reflexivity.
Qed.

(** *** normalize *)

Lemma fmin_idem (x : float) : fmin x x = x.
Proof.
  unfold fmin. destruct (PrimFloat.is_nan x), (x <? x)%float; reflexivity.
Qed.

Lemma fmax_idem (x : float) : fmax x x = x.
Proof.
  unfold fmax. destruct (PrimFloat.is_nan x), (x <? x)%float; reflexivity.
Qed.

Lemma amin_constant (x : float) (n : nat) : amin (repeat x (S n)) = Ok x.
Proof.
  simpl. f_equal. induction n as [| n IH]; simpl; [reflexivity |].
  rewrite fmin_idem. exact IH.
Qed.

Lemma amax_constant (x : float) (n : nat) : amax (repeat x (S n)) = Ok x.
Proof.
  simpl. f_equal. induction n as [| n IH]; simpl; [reflexivity |].
  rewrite fmax_idem. exact IH.
Qed.

(** A sample of a constant array normalizes to nan. *)
Lemma normalize_sample_constant (x : float) :
  (-1 + 2 * (x - x) / (x - x))%float = nan.
Proof.
  apply Prim2SF_inj.
  rewrite add_spec, div_spec, mul_spec, float_sub_diag.
  destruct (finite x); reflexivity.
Qed.

(** X18: [normalize] turns every non-empty constant array into nans:
    its range is zero (or, for an infinite or nan value, nan). *)
Theorem normalize_constant_nan (x : float) (n : nat) :
  normalize (repeat x (S n)) = Ok (repeat nan (S n)).
Proof.
  unfold normalize. rewrite amin_constant, amax_constant.
  cbn [bind]. f_equal. rewrite map_map, map_repeat.
  rewrite normalize_sample_constant. reflexivity.
Qed.

(** X17: [normalize] raises [ValueError] on an empty array, and on any
    other array returns an array of the same length. *)
Theorem normalize_length (vector : list float) :
  (vector = [] -> normalize vector = Raise ValueError)
  /\ (vector <> [] ->
      exists out, normalize vector = Ok out /\ length out = length vector).
Proof.
  split.
  - intros ->. reflexivity.
  - intros Hne. destruct vector as [| x rest]; [contradiction |].
    unfold normalize. cbn [amin amax bind].
    eexists. split; [reflexivity |]. rewrite !length_map. reflexivity.
Qed.

(** A sample equal to a finite minimum normalizes to [-1.0] when the
    range is neither zero nor nan. *)
Lemma normalize_sample_min (lo range : float) :
  finite lo = true -> nonzero range = true ->
  (-1 + 2 * (lo - lo) / range)%float = (-1)%float.
Proof.
  intros Hlo Hr. apply Prim2SF_inj.
  rewrite add_spec, div_spec, mul_spec, float_sub_diag, Hlo.
  unfold nonzero in Hr.
  destruct (Prim2SF range) as [s | s | | s m e]; try discriminate;
    destruct s; reflexivity.
Qed.

(** X19: where the minimum of the array is finite and the range
    [max - min] is neither zero nor nan, [normalize] sends every sample
    equal to the minimum to exactly [-1.0]. *)
Theorem normalize_min_to_minus_one (vector : list float) (lo hi : float)
  (i : nat) :
  amin vector = Ok lo -> amax vector = Ok hi ->
  finite lo = true -> nonzero (hi - lo)%float = true ->
  nth_error vector i = Some lo ->
  exists out,
    normalize vector = Ok out /\ nth_error out i = Some (-1)%float.
Proof.
  intros Hlo Hhi Hfin Hr Hi. unfold normalize. rewrite Hlo, Hhi.
  cbn [bind]. eexists. split; [reflexivity |].
  rewrite map_map, nth_error_map, Hi. simpl. f_equal.
  apply normalize_sample_min; assumption.
Qed.

(** X8: [mix] adds the shorter signal to the start of the longer one,
    whichever comes first: where both have a sample the result is
    [(0.0 + long) + short], after the end of the shorter one it is
    [0.0 + long]. *)
Theorem mix_overlap_and_tail {Self : Type} (self : Self)
  (long short : list float) :
  (length short <= length long)%nat ->
  mix self long short
  = Ok (zip_add (map (fun v => (0 + v)%float) (firstn (length short) long))
          short
        ++ map (fun v => (0 + v)%float) (skipn (length short) long))
  /\ mix self short long
     = Ok (zip_add (map (fun v => (0 + v)%float)
                      (firstn (length short) long))
             short
           ++ map (fun v => (0 + v)%float) (skipn (length short) long)).
Proof.
  intros H. split; [apply mix_long_short, H |].
  rewrite (mix_short_long self long short H). apply mix_long_short, H.
Qed.

End UtilsFacts.

(** ** [music.structures.permutations] *)

Module PermutationsFacts.

Import Permutations.

Lemma digits2_pos_bounds (p : positive) :
  2 ^ (Z.pos (digits2_pos p) - 1) <= Z.pos p < 2 ^ Z.pos (digits2_pos p).
Proof.
  induction p as [p IH | p IH |]; simpl digits2_pos.
  - rewrite Pos2Z.inj_succ.
    replace (Z.succ (Z.pos (digits2_pos p)) - 1)
      with (Z.succ (Z.pos (digits2_pos p) - 1)) by lia.
    rewrite !Z.pow_succ_r by lia. lia.
  - rewrite Pos2Z.inj_succ.
    replace (Z.succ (Z.pos (digits2_pos p)) - 1)
      with (Z.succ (Z.pos (digits2_pos p) - 1)) by lia.
    rewrite !Z.pow_succ_r by lia. lia.
  - simpl. lia.
Qed.

Lemma digits2_pos_unique (p : positive) (d : Z) :
  2 ^ (d - 1) <= Z.pos p < 2 ^ d -> Z.pos (digits2_pos p) = d.
Proof.
  intros [Hlo Hhi]. pose proof (digits2_pos_bounds p) as [Blo Bhi].
  assert (Hd : 0 < d).
  { destruct (Z.lt_ge_cases 0 d) as [H | H]; [exact H |].
    destruct (Z.eq_dec d 0) as [-> | Hn]; [simpl in Hhi; lia |].
    rewrite Z.pow_neg_r in Hhi by lia. lia. }
  destruct (Z.lt_trichotomy (Z.pos (digits2_pos p)) d) as [H | [H | H]].
  - assert (2 ^ Z.pos (digits2_pos p) <= 2 ^ (d - 1))
      by (apply Z.pow_le_mono_r; lia). lia.
  - exact H.
  - assert (2 ^ d <= 2 ^ (Z.pos (digits2_pos p) - 1))
      by (apply Z.pow_le_mono_r; lia). lia.
Qed.

Lemma div_eucl_double (a : Z) : Z.div_eucl (2 * a) 2 = (a, 0).
Proof.
  pose proof (Z.div_eucl_eq (2 * a) 2 ltac:(lia)) as E.
  pose proof (Z.mod_pos_bound (2 * a) 2 ltac:(lia)) as B.
  unfold Z.modulo in B.
  destruct (Z.div_eucl (2 * a) 2) as [q r].
  f_equal; lia.
Qed.

(** Halving an even integer below 2^54 is exact. *)
Lemma int_truediv_two_exact (k : positive) :
  Z.pos k < 2 ^ 53 ->
  exists p e,
    int_truediv (Z.pos k~0) 2 = Ok (SF2Prim (S754_finite false p e))
    /\ valid_binary (S754_finite false p e) = true
    /\ e <= 0
    /\ Z.pos p = Z.pos k * 2 ^ (- e).
Proof.
  intros Hk.
  pose proof (digits2_pos_bounds k) as [Blo Bhi].
  set (d := Z.pos (digits2_pos k)) in *.
  assert (Hd1 : 1 <= d) by (unfold d; lia).
  assert (Hd53 : d <= 53).
  { destruct (Z.le_gt_cases d 53) as [H | H]; [exact H |].
    assert (2 ^ 53 <= 2 ^ (d - 1)) by (apply Z.pow_le_mono_r; lia). lia. }
  set (t := 53 - d).
  assert (Hpos : 0 < Z.pos k * 2 ^ t) by (apply Z.mul_pos_pos; [lia | apply Z.pow_pos_nonneg; lia]).
  set (p := Z.to_pos (Z.pos k * 2 ^ t)).
  assert (Hp : Z.pos p = Z.pos k * 2 ^ t) by (unfold p; apply Z2Pos.id, Hpos).
  assert (Hdp : Z.pos (digits2_pos p) = 53).
  { apply digits2_pos_unique. rewrite Hp.
    replace 53 with (d + t) by (unfold t; lia).
    replace (d + t - 1) with ((d - 1) + t) by lia.
    rewrite !Z.pow_add_r by (unfold t; lia).
    assert (0 < 2 ^ t) by (apply Z.pow_pos_nonneg; unfold t; lia).
    nia. }
  exists p, (d - 53).
  split; [| split; [| split]].
  - unfold int_truediv.
    change (2 =? 0) with false. change (Z.pos k~0 =? 0) with false. cbv iota.
    unfold SFdiv_core_binary.
    change (Z.abs (Z.pos k~0)) with (Z.pos k~0).
    change (Z.abs 2) with 2.
    change (Zdigits2 (Z.pos k~0)) with (Z.pos (Pos.succ (digits2_pos k))).
    rewrite Pos2Z.inj_succ. fold d.
    change (Zdigits2 2) with 2.
    assert (He : Z.min (fexp prec emax (Z.succ d + 0 - (2 + 0))) (0 - 0)
                 = d - 54).
    { unfold fexp, emin, prec, emax. lia. }
    rewrite He.
    replace (0 - 0 - (d - 54)) with (Z.succ t) by (unfold t; lia).
    assert (Hm : match Z.succ t with
                 | 0 => Z.pos k~0
                 | Z.pos _ => Z.shiftl (Z.pos k~0) (Z.succ t)
                 | Z.neg _ => 0
                 end = 2 * Z.pos p~0).
    { assert (Hsh : Z.shiftl (Z.pos k~0) (Z.succ t) = 2 * Z.pos p~0).
      { rewrite Z.shiftl_mul_pow2 by (unfold t; lia).
        rewrite Z.pow_succ_r by (unfold t; lia).
        change (Z.pos p~0) with (2 * Z.pos p). rewrite Hp.
        change (Z.pos k~0) with (2 * Z.pos k). lia. }
      destruct (Z.succ t) eqn:E;
        [unfold t in E; lia | exact Hsh | unfold t in E; lia]. }
    change IntDef.Z.shiftl with Z.shiftl.
    change IntDef.Z.div_eucl with Z.div_eucl.
    rewrite Hm, div_eucl_double.
    change (new_location 2 0) with loc_Exact.
    change (xorb (Z.pos k~0 <? 0) (2 <? 0)) with false.
    unfold binary_round_aux.
    unfold shr_fexp at 1.
    change (Zdigits2 (Z.pos p~0)) with (Z.pos (Pos.succ (digits2_pos p))).
    rewrite Pos2Z.inj_succ, Hdp.
    assert (Hf1 : fexp prec emax (Z.succ 53 + (d - 54)) - (d - 54) = 1).
    { unfold fexp, emin, prec, emax. lia. }
    rewrite Hf1.
    cbn [shr shr_record_of_loc iter_pos shr_1 orb shr_m shr_r shr_s
         loc_of_shr_record round_nearest_even].
    unfold shr_fexp. cbn [Zdigits2]. rewrite Hdp.
    assert (Hf2 : fexp prec emax (53 + (d - 54 + 1)) - (d - 54 + 1) = 0).
    { unfold fexp, emin, prec, emax. lia. }
    rewrite Hf2.
    cbn [shr shr_record_of_loc shr_m].
    assert (Hle : (d - 54 + 1 <=? emax - prec) = true).
    { apply Z.leb_le. unfold prec, emax. lia. }
    rewrite Hle.
    replace (d - 54 + 1) with (d - 53) by lia. reflexivity.
  - unfold SpecFloat.valid_binary, bounded, canonical_mantissa.
    rewrite Hdp. apply andb_true_iff. split.
    + apply Z.eqb_eq. unfold fexp, emin, prec, emax. lia.
    + apply Z.leb_le. unfold prec, emax. lia.
  - lia.
  - rewrite Hp. f_equal. f_equal. unfold t. lia.
Qed.

Lemma int_ge_exact_half (k p : positive) (e z : Z) :
  valid_binary (S754_finite false p e) = true ->
  e <= 0 ->
  Z.pos p = Z.pos k * 2 ^ (- e) ->
  int_ge z (PyFloat (SF2Prim (S754_finite false p e))) = (Z.pos k <=? z).
Proof.
  intros Hv He Hp. unfold int_ge.
  rewrite Prim2SF_SF2Prim by exact Hv.
  unfold finite_value, Qle_bool.
  assert (Hpow : 0 < 2 ^ (- e)) by (apply Z.pow_pos_nonneg; lia).
  destruct (Z.leb_spec 0 e) as [H0 | H0]; cbn [Qnum Qden inject_Z].
  - replace e with 0 in * by lia. simpl in Hp.
    apply eq_true_iff_eq. rewrite !Z.leb_le. simpl. lia.
  - rewrite Z2Pos.id by exact Hpow.
    apply eq_true_iff_eq. rewrite !Z.leb_le. rewrite Hp. nia.
Qed.

(** X20: for a permutation of fewer than 2^54 points whose support
    starts with the points [i] and [j], at a distance below the size,
    [dist] is the circular distance of [i] and [j]: the smaller of
    [|j - i|] and [size - |j - i|], between 1 and [size // 2]. *)
Theorem dist_circular (swap : permutation) (i j : Z) (rest : list Z) :
  size swap < 2 ^ 54 ->
  support swap = i :: j :: rest ->
  0 < Z.abs (j - i) < size swap ->
  dist swap = Ok (Z.min (Z.abs (j - i)) (size swap - Z.abs (j - i)))
  /\ 1 <= Z.min (Z.abs (j - i)) (size swap - Z.abs (j - i)) <= size swap / 2.
Proof.
  intros Hsize Hsup Hd.
  set (n := size swap) in *. set (d := Z.abs (j - i)) in *.
  split.
  - unfold dist. fold n.
    destruct (Z.eqb_spec (n mod 2) 0) as [Heven | Hodd].
    + assert (Hn : exists k, n = Z.pos k~0 /\ Z.pos k < 2 ^ 53).
      { destruct n as [| q | q]; try lia.
        destruct q as [q | q |]; try (exfalso; clear - Heven; 
          rewrite ?Pos2Z.inj_xI in Heven;
          Z.to_euclidean_division_equations; lia).
        exists q. split; [reflexivity |]. change (2 ^ 54) with (2 * 2 ^ 53) in Hsize.
        lia. }
      destruct Hn as (k & Hn & Hk).
      destruct (int_truediv_two_exact k Hk) as (p & e & Hdiv & Hv & He & Hp).
      cbn [py_truediv]. rewrite Hn at 1. rewrite Hdiv. cbn [bind].
      rewrite Hsup. cbn [item nth_error bind]. fold d.
      rewrite (int_ge_exact_half k p e d Hv He Hp).
      f_equal. destruct (Z.leb_spec (Z.pos k) d); lia.
    + cbn [bind]. rewrite Hsup. cbn [item nth_error bind int_ge]. fold d.
      f_equal. destruct (Z.leb_spec (n / 2 + 1) d);
        Z.to_euclidean_division_equations; lia.
  - Z.to_euclidean_division_equations; lia.
Qed.

(** X21: on a permutation that moves fewer than two points [dist]
    raises: [IndexError], or the [OverflowError] of [size/2] for an even
    size too large for a float. *)
Theorem dist_needs_two_points (swap : permutation) :
  (length (support swap) < 2)%nat ->
  dist swap = Raise IndexError \/ dist swap = Raise OverflowError.
Proof.
  intros Hlen. unfold dist.
  destruct (size swap mod 2 =? 0).
  - destruct (py_truediv (PyInt (size swap)) (PyInt 2)) as [h | e] eqn:E.
    + left. cbn [bind]. destruct (support swap) as [| a [| b rest]];
        [reflexivity | reflexivity | simpl in Hlen; lia].
    + unfold py_truediv, int_truediv in E.
      change (2 =? 0) with false in E. cbv iota in E.
      destruct (size swap =? 0); [discriminate |].
      destruct (SFdiv_core_binary prec emax (Z.abs (size swap)) 0 (Z.abs 2) 0)
        as [[mz ez] lz].
      destruct (binary_round_aux prec emax
                  (xorb (size swap <? 0) (2 <? 0)) mz ez lz);
        try discriminate.
      injection E as <-. right. reflexivity.
  - left. cbn [bind]. destruct (support swap) as [| a [| b rest]];
      [reflexivity | reflexivity | simpl in Hlen; lia].
Qed.

End PermutationsFacts.

(** * More concrete runs *)

Module MoreRuns.

Import Examples MoreExamples.

(** Sample 10 of the envelope of [cfg_lin] lies on the plateau. *)
Lemma adsr_sustain_plateau_witness :
  2 + 2 <= 10 < 100 - 5
  /\ nth_error (value_or [] (lin_adsr cfg_lin None)) 10
     = Some (1 / 10)%float.
Proof.
  split; [lia |].
  apply (adsr_sustain_plateau lin_fade (lin_loud pow10_int) pow10_int
           cfg_lin (value_or [] (lin_adsr cfg_lin None)) 100 2 2 5
           (1 / 10)%float
           Runs.lin_fade_contract (Runs.lin_loud_contract pow10_int)
           eq_refl eq_refl eq_refl eq_refl eq_refl eq_refl 10).
  lia.
Defined.

Lemma adsr_attack_then_decay_witness :
  exists perc,
    param_truediv (to_zero cfg_lin) (attack_duration cfg_lin) = Ok perc
    /\ lin_fade (Some false) (transition cfg_lin) (alpha cfg_lin)
         (db_dev cfg_lin) perc 2
       = Ok (firstn 2 (value_or [] (lin_adsr cfg_lin None)))
    /\ lin_loud pow10_int (sustain_level cfg_lin) (transition cfg_lin)
         (alpha cfg_lin) 2
       = Ok (firstn 2 (skipn 2 (value_or [] (lin_adsr cfg_lin None)))).
Proof.
  exact (adsr_attack_then_decay lin_fade (lin_loud pow10_int) pow10_int
           cfg_lin (value_or [] (lin_adsr cfg_lin None)) 2 2
           Runs.lin_fade_contract (Runs.lin_loud_contract pow10_int)
           eq_refl eq_refl eq_refl).
Defined.

(** One row is not enough for [adsr_stereo]. *)
Lemma adsr_stereo_needs_two_rows_witness :
  lin_adsr_stereo cfg_lin (Some [sig_left]) = Raise IndexError.
Proof.
  destruct (adsr_stereo_needs_two_rows lin_fade (lin_loud pow10_int)
              pow10_int cfg_lin) as [H _].
  apply H. simpl. lia.
Defined.

(** Twelve samples on the left, ten on the right. *)
Lemma adsr_stereo_unequal_lengths_raise_witness :
  length sig_left <> length (firstn 10 sig_right)
  /\ lin_adsr_stereo cfg_lin (Some [sig_left; firstn 10 sig_right])
     = Raise ValueError.
Proof.
  assert (Hne : length sig_left <> length (firstn 10 sig_right))
    by (simpl; lia).
  split; [exact Hne |].
  exact (adsr_stereo_unequal_lengths_raise lin_fade (lin_loud pow10_int)
           pow10_int cfg_lin sig_left (firstn 10 sig_right)
           (value_or [] (lin_adsr cfg_lin (Some sig_left)))
           (value_or [] (lin_adsr cfg_lin (Some (firstn 10 sig_right))))
           Runs.lin_fade_contract (Runs.lin_loud_contract pow10_int)
           Hne eq_refl eq_refl).
Defined.

Lemma adsr_stereo_shape_witness :
  exists r0 r1,
    value_or [] (lin_adsr_stereo cfg_lin (Some [sig_left; sig_right]))
    = [r0; r1]
    /\ length r0 = length r1.
Proof.
  exact (adsr_stereo_shape lin_fade (lin_loud pow10_int) pow10_int
           cfg_lin (Some [sig_left; sig_right])
           (value_or []
              (lin_adsr_stereo cfg_lin (Some [sig_left; sig_right])))
           eq_refl).
Defined.

(** A [sonic_vector] key in [adsr_dict] clashes with the note. *)
Lemma adsr_vibrato_sonic_vector_key_witness :
  lin_adsr_vibrato tt clashing_keywords = Raise TypeError.
Proof.
  destruct (adsr_vibrato_sonic_vector_key lin_fade (lin_loud pow10_int)
              pow10_int unit twelve_samples tt clashing_keywords
              (Some sig_right) eq_refl) as [_ H].
  apply (H sig_left). reflexivity.
Defined.

Lemma adsr_vibrato_keeps_length_witness :
  length (value_or [] (lin_adsr_vibrato tt lin_keywords)) = 12%nat.
Proof.
  destruct (adsr_vibrato_keeps_length lin_fade (lin_loud pow10_int)
              pow10_int unit twelve_samples tt lin_keywords sig_left
              (value_or [] (lin_adsr_vibrato tt lin_keywords))
              Runs.lin_fade_contract (Runs.lin_loud_contract pow10_int)
              eq_refl eq_refl) as [H _].
  exact H.
Defined.

(** Three samples and one. *)
Lemma mix_overlap_and_tail_witness :
  Utils.mix tt [1%float; 2%float; 3%float] [10%float]
  = Ok [11%float; 2%float; 3%float]
  /\ Utils.mix tt [10%float] [1%float; 2%float; 3%float]
     = Ok [11%float; 2%float; 3%float].
Proof.
  apply (UtilsFacts.mix_overlap_and_tail tt
           [1%float; 2%float; 3%float] [10%float]).
  simpl. lia.
Defined.

(** A mono sound of two samples. *)
Lemma mixS_two_sample_mono_raises_witness :
  Utils.mixS (Utils.Mono [1%float; 2%float]) Utils.no_sound false
  = Raise TypeError.
Proof.
  apply UtilsFacts.mixS_two_sample_mono_raises. left. reflexivity.
Defined.

Lemma mixS_shape_witness :
  exists out,
    Utils.mixS (Utils.Mono [1%float; 2%float; 3%float])
      (Utils.Stereo [(10%float, 20%float)]) true = Ok out
    /\ length out = 3%nat.
Proof.
  apply (UtilsFacts.mixS_shape (Utils.Mono [1%float; 2%float; 3%float])
           (Utils.Stereo [(10%float, 20%float)]) true); reflexivity.
Defined.

Lemma mixS_mono_channels_equal_witness :
  map fst [(11%float, 11%float); (2%float, 2%float); (3%float, 3%float)]
  = map snd [(11%float, 11%float); (2%float, 2%float); (3%float, 3%float)].
Proof.
  apply (UtilsFacts.mixS_mono_channels_equal
           [1%float; 2%float; 3%float] [10%float] false).
  reflexivity.
Defined.

Lemma mixS_alone_witness :
  Utils.mixS (Utils.Mono [1%float; 2%float; 3%float]) Utils.no_sound false
  = Ok [(1%float, 1%float); (2%float, 2%float); (3%float, 3%float)].
Proof.
  destruct (UtilsFacts.mixS_alone false) as [H _].
  apply (H [1%float; 2%float; 3%float]). simpl. lia.
Defined.

Lemma normalize_length_witness :
  Utils.normalize [] = Raise ValueError
  /\ exists out,
       Utils.normalize [1%float; 3%float; 2%float] = Ok out
       /\ length out = 3%nat.
Proof.
  destruct (UtilsFacts.normalize_length []) as [H0 _].
  destruct (UtilsFacts.normalize_length [1%float; 3%float; 2%float])
    as [_ H1].
  split; [apply H0; reflexivity | apply H1; discriminate].
Defined.

(** In [1, 3, 2] the first sample is the minimum. *)
Lemma normalize_min_to_minus_one_witness :
  exists out,
    Utils.normalize [1%float; 3%float; 2%float] = Ok out
    /\ nth_error out 0 = Some (-1)%float.
Proof.
  apply (UtilsFacts.normalize_min_to_minus_one
           [1%float; 3%float; 2%float] 1%float 3%float 0);
    reflexivity.
Defined.

(** Opposite points of a square are at distance 2. *)
Lemma dist_circular_witness :
  Permutations.dist swap_0_2 = Ok 2 /\ 1 <= 2 <= 4 / 2.
Proof.
  apply (PermutationsFacts.dist_circular swap_0_2 0 2 []).
  - reflexivity.
  - reflexivity.
  - simpl. lia.
Defined.

Lemma dist_needs_two_points_witness :
  Permutations.dist identity_4 = Raise IndexError
  \/ Permutations.dist identity_4 = Raise OverflowError.
Proof.
  apply PermutationsFacts.dist_needs_two_points. simpl. lia.
Defined.

End MoreRuns.
